(** * Brace-counting debug scripts: a shallow embedding and its properties

    The repository holds two Python scripts, [debug_braces.py] and
    [debug_braces_full.py].  Each one opens a hard-coded Swift source file in
    text mode, reads its lines, walks over every character keeping a running
    count of [{] minus [}], and prints a report.

    The embedding follows the scripts statement by statement:
    - a Python [str] is a list of Unicode code points ([N]);
    - a Python [int] is a [Z];
    - the [for] loops are structural recursions over the list they iterate,
      threading the script's variables through a record;
    - [print] appends its argument to a list standing for standard output;
    - [open] and [f.readlines()] are functions of an explicit [World]
      (the file system and the text encoding in force) that either raise
      or return. *)

From Stdlib Require Import String Ascii Strings.Byte DecimalString.
From Stdlib Require Import ZArith NArith Bool List Sorted Lia.
Import ListNotations.

Open Scope Z_scope.

(** ** The part of the Python runtime the scripts use *)

Module Py.

(** A character is a code point, a [str] a sequence of them. *)
Definition char := N.
Definition str := list char.

(** An ASCII literal of the Python source as a [str]. *)
Definition lit (s : string) : str := map N_of_ascii (list_ascii_of_string s).

Definition LF : char := 10%N.
Definition CR : char := 13%N.
Definition LBRACE : char := 123%N.
Definition RBRACE : char := 125%N.

(** [str(n)] for an [int]. *)
Definition str_of_int (n : Z) : str := lit (NilZero.string_of_int (Z.to_int n)).

(** [format(n, '+d')]: the sign is always written. *)
Definition format_plus_d (n : Z) : str :=
  if n <? 0 then str_of_int n else lit "+" ++ str_of_int n.

(** [ch.isspace()], the characters [str.strip()] removes. *)
Definition isspace (c : char) : bool :=
  ((9 <=? c) && (c <=? 13) || (28 <=? c) && (c <=? 32)
   || (c =? 133) || (c =? 160) || (c =? 5760)
   || (8192 <=? c) && (c <=? 8202)
   || (c =? 8232) || (c =? 8233) || (c =? 8239) || (c =? 8287)
   || (c =? 12288))%N.

Fixpoint lstrip (s : str) : str :=
  match s with
  | [] => []
  | c :: rest => if isspace c then lstrip rest else s
  end.

Definition rstrip (s : str) : str := rev (lstrip (rev s)).

(** [s.strip()] *)
Definition strip (s : str) : str := rstrip (lstrip s).

(** [s[:n]] for a non-negative literal [n]. *)
Definition slice_to (n : nat) (s : str) : str := firstn n s.

Fixpoint startswith (pat s : str) : bool :=
  match pat, s with
  | [], _ => true
  | _ :: _, [] => false
  | p :: pat', c :: s' => (p =? c)%N && startswith pat' s'
  end.

(** [pat in s] for strings: [pat] occurs as a contiguous substring. *)
Fixpoint contains (pat s : str) : bool :=
  startswith pat s ||
  match s with
  | [] => false
  | _ :: s' => contains pat s'
  end.

(** *** Exceptions and results *)

Inductive exn :=
| FileNotFoundError
| PermissionError
| IsADirectoryError
| NotADirectoryError
| UnicodeDecodeError.


Inductive result (A : Type) :=
| Raise (e : exn)
| Return (a : A).
Arguments Raise {A} e.
Arguments Return {A} a.

Definition bind {A B} (m : result A) (k : A -> result B) : result B :=
  match m with
  | Raise e => Raise e
  | Return a => k a
  end.

(** *** Files *)

Inductive node :=
| Absent                          (* no such file *)
| Denied                          (* exists, but may not be opened for reading *)
| Directory
| NotADirectory                   (* a component of the path is no directory *)
| File (content : list byte).

(** The environment of a run: the file system, and the strict decoder of
    the text encoding that [open(..., 'r')] picks up from the locale. *)
Record World := {
  fs : string -> node;
  decode : list byte -> option str
}.

(** [open(path, 'r')]: the handle is modelled by the bytes it will yield. *)
Definition open (w : World) (path : string) : result (list byte) :=
  match fs w path with
  | Absent => Raise FileNotFoundError
  | Denied => Raise PermissionError
  | Directory => Raise IsADirectoryError
  | NotADirectory => Raise NotADirectoryError
  | File content => Return content
  end.

(** Universal newlines, the default of text mode: ["\r\n"] and a lone
    ["\r"] are read as ["\n"]. *)
Fixpoint universal_newlines (t : str) : str :=
  match t with
  | [] => []
  | c :: rest =>
      if (c =? CR)%N then
        LF :: match rest with
              | [] => []
              | c' :: rest' =>
                  if (c' =? LF)%N then universal_newlines rest'
                  else universal_newlines rest
              end
      else c :: universal_newlines rest
  end.

(** The lines of a text, each keeping its final ["\n"]; only the last line
    may lack one. *)
Fixpoint split_lines (t : str) : list str :=
  match t with
  | [] => []
  | c :: rest =>
      if (c =? LF)%N then [c] :: split_lines rest
      else match split_lines rest with
           | [] => [[c]]
           | l :: ls => (c :: l) :: ls
           end
  end.

(** [f.readlines()] on a handle opened in text mode. *)
Definition readlines (w : World) (f : list byte) : result (list str) :=
  match decode w f with
  | None => Raise UnicodeDecodeError
  | Some t => Return (split_lines (universal_newlines t))
  end.

(** *** The UTF-8 codec, strict *)

Definition is_cont (b : N) : bool := ((128 <=? b) && (b <=? 191))%N.

(** The payload of a continuation byte. *)
Definition cont (b : N) : N := (b - 128)%N.

(** A code point decoded from [len] bytes is accepted when it is not an
    overlong form, not a surrogate, and inside the Unicode range. *)
Definition utf8_accept (len : nat) (cp : N) : bool :=
  match len with
  | 2%nat => (128 <=? cp)%N
  | 3%nat => (2048 <=? cp)%N && negb ((55296 <=? cp) && (cp <=? 57343))%N
  | 4%nat => (65536 <=? cp)%N && (cp <=? 1114111)%N
  | _ => false
  end.

Fixpoint utf8_decode_N (bs : list N) : option str :=
  match bs with
  | [] => Some []
  | b0 :: r0 =>
      if (b0 <? 128)%N then option_map (cons b0) (utf8_decode_N r0)
      else if ((192 <=? b0) && (b0 <? 224))%N then
        match r0 with
        | b1 :: r1 =>
            let cp := ((b0 - 192) * 64 + cont b1)%N in
            if is_cont b1 && utf8_accept 2 cp
            then option_map (cons cp) (utf8_decode_N r1) else None
        | _ => None
        end
      else if ((224 <=? b0) && (b0 <? 240))%N then
        match r0 with
        | b1 :: b2 :: r2 =>
            let cp := ((b0 - 224) * 4096 + cont b1 * 64 + cont b2)%N in
            if is_cont b1 && is_cont b2 && utf8_accept 3 cp
            then option_map (cons cp) (utf8_decode_N r2) else None
        | _ => None
        end
      else if ((240 <=? b0) && (b0 <? 248))%N then
        match r0 with
        | b1 :: b2 :: b3 :: r3 =>
            let cp := ((b0 - 240) * 262144 + cont b1 * 4096
                       + cont b2 * 64 + cont b3)%N in
            if is_cont b1 && is_cont b2 && is_cont b3 && utf8_accept 4 cp
            then option_map (cons cp) (utf8_decode_N r3) else None
        | _ => None
        end
      else None
  end.

Definition utf8_decode (bs : list byte) : option str :=
  utf8_decode_N (map Byte.to_N bs).

(** The Latin-1 codec: every byte is its own code point. *)
Definition latin1_decode (bs : list byte) : option str :=
  Some (map Byte.to_N bs).

End Py.

Import Py.

(** ** [debug_braces.py]: scan the whole file, then print a window *)

Module debug_braces.

Definition path : string :=
  "VoiceAssistant/Core ML Testing/MLTestingFramework.swift".

(** An element of [line_braces]:
    [(i, line_brace_change, brace_count, line.strip())]. *)
Definition record : Type := Z * Z * Z * str.

(** The script's variables, its standard output, and one ghost field:
    [seen] logs, at the end of every execution of the outer loop's body, the
    line number and the value [brace_count] has there.  No statement of the
    script reads it. *)
Record state := mk {
  brace_count : Z;
  line_braces : list record;
  stdout : list str;
  seen : list (Z * Z)
}.

(** [brace_count = 0; line_braces = []] *)
Definition init : state :=
  {| brace_count := 0; line_braces := []; stdout := []; seen := [] |}.

(** [for char in line: ...], on the pair
    [(brace_count, line_brace_change)]. *)
Fixpoint for_char (line : str) (v : Z * Z) : Z * Z :=
  match line with
  | [] => v
  | char :: rest =>
      let '(bc, lbc) := v in
      if (char =? LBRACE)%N then for_char rest (bc + 1, lbc + 1)
      else if (char =? RBRACE)%N then for_char rest (bc - 1, lbc - 1)
      else for_char rest (bc, lbc)
  end.

(** The body of [for i, line in enumerate(lines, 1)]. *)
Definition body (i : Z) (line : str) (s : state) : state :=
  let '(bc, line_brace_change) := for_char line (brace_count s, 0) in
  {| brace_count := bc;
     line_braces :=
       if negb (line_brace_change =? 0)
       then line_braces s ++ [(i, line_brace_change, bc, strip line)]
       else line_braces s;
     stdout := stdout s;
     seen := seen s ++ [(i, bc)] |}.

Fixpoint for_lines (i : Z) (lines : list str) (s : state) : state :=
  match lines with
  | [] => s
  | line :: rest => for_lines (i + 1) rest (body i line s)
  end.

(** [f'Line {line_num}: {change:+d} (total: {total}) - {content[:80]}'] *)
Definition report (r : record) : str :=
  let '(line_num, change, total, content) := r in
  lit "Line " ++ str_of_int line_num ++ lit ": " ++ format_plus_d change
  ++ lit " (total: " ++ str_of_int total ++ lit ") - " ++ slice_to 80 content.

(** [for line_num, change, total, content in line_braces: ...], on the
    standard output. *)
Fixpoint for_records (recs : list record) (out : list str) : list str :=
  match recs with
  | [] => out
  | r :: rest =>
      let '(line_num, _, _, _) := r in
      let out' := if line_num >=? 1200 then out ++ [report r] else out in
      if line_num >=? 1280 then out' else for_records rest out'
  end.

Definition header : str :=
  lit "Lines with brace changes around the problematic area:".

(** [f'Final brace count at line 1280: {brace_count}'] *)
Definition final_message (brace_count : Z) : str :=
  lit "Final brace count at line 1280: " ++ str_of_int brace_count.

Definition print (x : str) (s : state) : state :=
  {| brace_count := brace_count s; line_braces := line_braces s;
     stdout := stdout s ++ [x]; seen := seen s |}.

(** Everything after the [with] block, from [brace_count = 0] on. *)
Definition script (lines : list str) : state :=
  let s := for_lines 1 lines init in
  let s := print header s in
  let s := {| brace_count := brace_count s; line_braces := line_braces s;
              stdout := for_records (line_braces s) (stdout s);
              seen := seen s |} in
  print (final_message (brace_count s)) s.

(** The whole script. *)
Definition main (w : World) : result state :=
  bind (bind (open w path) (readlines w)) (fun lines =>
  Return (script lines)).

End debug_braces.

(** ** [debug_braces_full.py]: print while scanning, with heuristics *)

Module debug_braces_full.

Definition path : string :=
  "VoiceAssistant/Core ML Testing/MLTestingFramework.swift".

(** The script's variables, its standard output, and the ghost log [seen]
    (line number and [brace_count] at the end of every executed body of the
    outer loop). *)
Record state := mk {
  brace_count : Z;
  stdout : list str;
  seen : list (Z * Z)
}.

Definition expected_class_level : Z := 1.

(** [brace_count = 0] *)
Definition init : state := {| brace_count := 0; stdout := []; seen := [] |}.

(** [for char in line: ...] *)
Fixpoint for_char (line : str) (brace_count : Z) : Z :=
  match line with
  | [] => brace_count
  | char :: rest =>
      if (char =? LBRACE)%N then for_char rest (brace_count + 1)
      else if (char =? RBRACE)%N then for_char rest (brace_count - 1)
      else for_char rest brace_count
  end.

(** The value of [suspicious] when the [print] is reached. *)
Definition suspicious (brace_count change : Z) (line : str) : str :=
  if (brace_count >? expected_class_level + 1)
     && contains (lit "func ") line && (change >? 0)
  then lit " [SUSPICIOUS: function starts at wrong level]"
  else if (brace_count <? expected_class_level)
          && negb (contains (lit "func ") line)
  then lit " [SUSPICIOUS: below class level]"
  else [].

(** [f'Line {i}: {change:+d} (total: {brace_count}) - {line_content}{suspicious}'] *)
Definition report (i change brace_count : Z) (line_content suspicious : str)
  : str :=
  lit "Line " ++ str_of_int i ++ lit ": " ++ format_plus_d change
  ++ lit " (total: " ++ str_of_int brace_count ++ lit ") - "
  ++ line_content ++ suspicious.

(** The body of [for i, line in enumerate(lines, 1)]; the boolean tells
    whether it left through [break]. *)
Definition body (i : Z) (line : str) (s : state) : state * bool :=
  let prev_count := brace_count s in
  let bc := for_char line prev_count in
  if negb (prev_count =? bc) then
    let change := bc - prev_count in
    let line_content := slice_to 80 (strip line) in
    ({| brace_count := bc;
        stdout := stdout s
                  ++ [report i change bc line_content
                        (suspicious bc change line)];
        seen := seen s ++ [(i, bc)] |},
     i >? 1300)
  else
    ({| brace_count := bc; stdout := stdout s;
        seen := seen s ++ [(i, bc)] |}, false).

Fixpoint for_lines (i : Z) (lines : list str) (s : state) : state :=
  match lines with
  | [] => s
  | line :: rest =>
      let '(s', break) := body i line s in
      if break then s' else for_lines (i + 1) rest s'
  end.

Definition header : str := lit "Tracking brace imbalances:".

(** [f'\nFinal analysis: Expected class level = {expected_class_level},
    Current = {brace_count}'] *)
Definition final_message (brace_count : Z) : str :=
  LF :: lit "Final analysis: Expected class level = "
  ++ str_of_int expected_class_level ++ lit ", Current = "
  ++ str_of_int brace_count.

Definition print (x : str) (s : state) : state :=
  {| brace_count := brace_count s; stdout := stdout s ++ [x];
     seen := seen s |}.

(** Everything after the [with] block, from [brace_count = 0] on. *)
Definition script (lines : list str) : state :=
  let s := print header init in
  let s := for_lines 1 lines s in
  print (final_message (brace_count s)) s.

(** The whole script. *)
Definition main (w : World) : result state :=
  bind (bind (open w path) (readlines w)) (fun lines =>
  Return (script lines)).

End debug_braces_full.

(** ** Vocabulary of the properties *)

(** The number of occurrences of [c] in [t]. *)
Fixpoint occurrences (c : char) (t : str) : Z :=
  match t with
  | [] => 0
  | x :: rest => (if (x =? c)%N then 1 else 0) + occurrences c rest
  end.

(** The number of [{] minus the number of [}] in [t]. *)
Definition balance (t : str) : Z :=
  occurrences LBRACE t - occurrences RBRACE t.

(** Line [k] of the file, counted from 1, and the balance of lines 1 to [k]. *)
Definition line_at (lines : list str) (k : nat) : str := nth (k - 1) lines [].
Definition balance_upto (lines : list str) (k : nat) : Z :=
  balance (concat (firstn k lines)).

(** The elements of [l] up to and including the first one that satisfies [p]. *)
Fixpoint through {A : Type} (p : A -> bool) (l : list A) : list A :=
  match l with
  | [] => []
  | x :: rest => if p x then [x] else x :: through p rest
  end.

(** The cutoff test [i > 1300] of [debug_braces_full.py] is reached on the
    lines that change the counter. *)
Definition cutoff_fires (i : Z) (line : str) : bool :=
  negb (balance line =? 0) && (i >? 1300).

(** The lines from number [i] on, up to and including the first one on
    which the cutoff fires. *)
Fixpoint scanned (i : Z) (lines : list str) : list str :=
  match lines with
  | [] => []
  | line :: rest =>
      if cutoff_fires i line then [line] else line :: scanned (i + 1) rest
  end.

(** The log of an uninterrupted scan of [lines], numbered from [i], that
    starts with the counter at [c]. *)
Fixpoint running (i c : Z) (lines : list str) : list (Z * Z) :=
  match lines with
  | [] => []
  | line :: rest =>
      (i, c + balance line) :: running (i + 1) (c + balance line) rest
  end.

(** The change records of such a scan. *)
Fixpoint changes (i c : Z) (lines : list str) : list debug_braces.record :=
  match lines with
  | [] => []
  | line :: rest =>
      (if negb (balance line =? 0)
       then [(i, balance line, c + balance line, strip line)] else [])
      ++ changes (i + 1) (c + balance line) rest
  end.

(** The line number of a change record. *)
Definition line_number (r : debug_braces.record) : Z :=
  let '(n, _, _, _) := r in n.

(** A world whose only file is the one the scripts open, holding [content],
    under a UTF-8 locale. *)
Definition utf8_file (content : list byte) : World :=
  {| fs := fun p =>
             if String.eqb p debug_braces.path then File content else Absent;
     decode := utf8_decode |}.

(** The reading of the suspicious-line rule with one expected depth [d] for
    both of its clauses. *)
Definition flagged_at_depth (d brace_count change : Z) (line : str) : Prop :=
  (brace_count > d /\ contains (lit "func ") line = true /\ change > 0)
  \/ (brace_count < d /\ contains (lit "func ") line = false).

(** [n] empty lines followed by [tail]. *)
Definition padded (n : nat) (tail : list str) : list str :=
  repeat [LF] n ++ tail.

(** The delta, the running total and the text of a change record. *)
Definition delta (r : debug_braces.record) : Z := let '(_, d, _, _) := r in d.
Definition total (r : debug_braces.record) : Z := let '(_, _, t, _) := r in t.
Definition content (r : debug_braces.record) : str :=
  let '(_, _, _, c) := r in c.

(** Starting from [c], each record's total is the total before it plus the
    record's delta. *)
Fixpoint chained (c : Z) (recs : list debug_braces.record) : Prop :=
  match recs with
  | [] => True
  | r :: rest => total r = c + delta r /\ chained (total r) rest
  end.

(** A text with no white space at either end. *)
Definition trimmed (s : str) : Prop :=
  (forall c r, s = c :: r -> isspace c = false)
  /\ (forall m c, s = m ++ [c] -> isspace c = false).

(** The line [debug_braces_full.py] prints for line [i], read with the
    counter at [c]. *)
Definition change_line (i c : Z) (line : str) : str :=
  debug_braces_full.report i (balance line) (c + balance line)
    (slice_to 80 (strip line))
    (debug_braces_full.suspicious (c + balance line) (balance line) line).

(** The change lines of an uninterrupted scan. *)
Fixpoint change_lines (i c : Z) (lines : list str) : list str :=
  match lines with
  | [] => []
  | line :: rest =>
      (if negb (balance line =? 0) then [change_line i c line] else [])
      ++ change_lines (i + 1) (c + balance line) rest
  end.

(** The report of [debug_braces.py] for the record [r], followed by the
    annotation [debug_braces_full.py] gives the line of [r]. *)
Definition annotated (lines : list str) (r : debug_braces.record) : str :=
  debug_braces.report r
  ++ debug_braces_full.suspicious (total r) (delta r)
       (line_at lines (Z.to_nat (line_number r))).

(** The lines [f.readlines()] returns for a file whose decoded text is [t]. *)
Definition lines_of (t : str) : list str :=
  split_lines (universal_newlines t).

(** Equality of tuples, component by component. *)
Ltac tuple_eq :=
  repeat (apply (f_equal2 pair)); try reflexivity; try lia.

(** ** Counting lemmas *)

Section Counting.

Lemma balance_cons (x : char) (t : str) :
  balance (x :: t)
  = (if (x =? LBRACE)%N then 1 else if (x =? RBRACE)%N then -1 else 0)
    + balance t.
Proof.
  unfold balance; cbn [occurrences].
  destruct (N.eqb_spec x LBRACE) as [->|]; [change (LBRACE =? RBRACE)%N with false; cbv iota; lia|].
  destruct (x =? RBRACE)%N; lia.
Qed.

Lemma balance_app (t u : str) : balance (t ++ u) = balance t + balance u.
Proof.
  induction t as [|x t IH]; [reflexivity|].
  cbn [app]. rewrite !balance_cons, IH. lia.
Qed.

Lemma balance_without_braces (t : str) :
  ~ In LBRACE t -> ~ In RBRACE t -> balance t = 0.
Proof.
  induction t as [|x t IH]; intros HL HR; [reflexivity|].
  rewrite balance_cons, IH; [| intro; apply HL; now right | intro; apply HR; now right].
  destruct (N.eqb_spec x LBRACE) as [->|]; [exfalso; apply HL; now left|].
  destruct (N.eqb_spec x RBRACE) as [->|]; [exfalso; apply HR; now left|].
  reflexivity.
Qed.

Lemma balance_upto_0 (lines : list str) : balance_upto lines 0 = 0.
Proof. reflexivity. Qed.

Lemma balance_upto_S (l : str) (lines : list str) (k : nat) :
  balance_upto (l :: lines) (S k) = balance l + balance_upto lines k.
Proof. unfold balance_upto. cbn [firstn concat]. apply balance_app. Qed.

Lemma balance_upto_all (lines : list str) :
  balance_upto lines (length lines) = balance (concat lines).
Proof. unfold balance_upto. now rewrite firstn_all. Qed.

End Counting.

(** ** Closed forms of the logs *)

Section Logs.

Lemma seq_from_1 (n : nat) : seq 1 (S n) = 1%nat :: map S (seq 1 n).
Proof. cbn [seq]. now rewrite <- seq_shift. Qed.



Lemma in_seq_1 (k n : nat) : In k (seq 1 n) -> (1 <= k <= n)%nat.
Proof. rewrite in_seq. lia. Qed.

(** Entry [k] of the log holds line number [k] and the balance of lines 1
    to [k]. *)
Lemma running_spec (lines : list str) (i c : Z) :
  running i c lines
  = map (fun k => (i + Z.of_nat k - 1, c + balance_upto lines k))
        (seq 1 (length lines)).
Proof.
  revert i c. induction lines as [|l lines IH]; intros i c; [reflexivity|].
  cbn [running length]. rewrite seq_from_1. cbn [map].
  rewrite map_map, IH. f_equal.
  - replace 1%nat with (S 0) by reflexivity.
    rewrite balance_upto_S, balance_upto_0. tuple_eq.
  - apply map_ext. intros k. rewrite balance_upto_S. tuple_eq.
Qed.


End Logs.

(** ** The loops of [debug_braces.py] *)

Section Windowed.

Import debug_braces.

Lemma windowed_for_char (line : str) (bc lbc : Z) :
  for_char line (bc, lbc) = (bc + balance line, lbc + balance line).
Proof.
  revert bc lbc. induction line as [|x line IH]; intros bc lbc.
  - cbn. f_equal; lia.
  - cbn [for_char]. rewrite balance_cons.
    destruct (x =? LBRACE)%N; [rewrite IH; f_equal; lia|].
    destruct (x =? RBRACE)%N; rewrite IH; f_equal; lia.
Qed.

Lemma windowed_body (i : Z) (line : str) (s : state) :
  body i line s
  = {| brace_count := brace_count s + balance line;
       line_braces := line_braces s ++ changes i (brace_count s) [line];
       stdout := stdout s;
       seen := seen s ++ running i (brace_count s) [line] |}.
Proof.
  unfold body. rewrite windowed_for_char. cbn [changes running].
  rewrite Z.add_0_l, !app_nil_r.
  destruct (negb (balance line =? 0)); [reflexivity|].
  now rewrite app_nil_r.
Qed.

Lemma windowed_for_lines (lines : list str) (i : Z) (s : state) :
  for_lines i lines s
  = {| brace_count := brace_count s + balance (concat lines);
       line_braces := line_braces s ++ changes i (brace_count s) lines;
       stdout := stdout s;
       seen := seen s ++ running i (brace_count s) lines |}.
Proof.
  revert i s. induction lines as [|l lines IH]; intros i s.
  - cbn. rewrite Z.add_0_r, !app_nil_r. now destruct s.
  - cbn [for_lines]. rewrite IH, windowed_body.
    cbn [brace_count line_braces stdout seen concat changes running].
    rewrite balance_app, !app_nil_r, <- !app_assoc.
    f_equal; lia.
Qed.

Lemma for_records_spec (recs : list record) (out : list str) :
  for_records recs out
  = out ++ map report
             (filter (fun r => line_number r >=? 1200)
                     (through (fun r => line_number r >=? 1280) recs)).
Proof.
  revert out. induction recs as [|[[[n ch] tot] txt] recs IH]; intros out.
  - cbn. now rewrite app_nil_r.
  - cbn [for_records through line_number].
    destruct (n >=? 1280) eqn:Hstop.
    + cbn [filter line_number]. destruct (n >=? 1200); cbn; [reflexivity|].
      now rewrite app_nil_r.
    + cbn [filter line_number]. rewrite IH.
      destruct (n >=? 1200); cbn [map]; [|reflexivity].
      now rewrite <- app_assoc.
Qed.

End Windowed.

(** ** The scanned prefix of [debug_braces_full.py] *)

Section Scanned.

Lemma scanned_length (lines : list str) (i : Z) :
  (length (scanned i lines) <= length lines)%nat.
Proof.
  revert i. induction lines as [|l lines IH]; intros i; [reflexivity|].
  cbn [scanned]. destruct (cutoff_fires i l); cbn [length]; [lia|].
  specialize (IH (i + 1)). lia.
Qed.

Lemma scanned_prefix (lines : list str) (i : Z) :
  scanned i lines = firstn (length (scanned i lines)) lines.
Proof.
  revert i. induction lines as [|l lines IH]; intros i; [reflexivity|].
  cbn [scanned]. destruct (cutoff_fires i l); cbn [length firstn].
  - reflexivity.
  - now rewrite <- IH.
Qed.

(** Before its last line, the scanned prefix holds no line on which the
    cutoff fires. *)
Lemma scanned_quiet (lines : list str) (i : Z) (k : nat) :
  (S k < length (scanned i lines))%nat ->
  cutoff_fires (i + Z.of_nat k) (nth k lines []) = false.
Proof.
  revert i k. induction lines as [|l lines IH]; intros i k; [cbn; lia|].
  cbn [scanned]. destruct (cutoff_fires i l) eqn:Hl; cbn [length]; [lia|].
  intros Hk. destruct k as [|k].
  - cbn [nth]. now rewrite Z.add_0_r.
  - cbn [nth]. replace (i + Z.of_nat (S k)) with (i + 1 + Z.of_nat k) by lia.
    apply IH. lia.
Qed.

(** When the scan leaves lines unread, the cutoff fired on the last line it
    read. *)
Lemma scanned_stop (lines : list str) (i : Z) :
  (length (scanned i lines) < length lines)%nat ->
  exists n, length (scanned i lines) = S n
            /\ cutoff_fires (i + Z.of_nat n) (nth n lines []) = true.
Proof.
  revert i. induction lines as [|l lines IH]; intros i; [cbn; lia|].
  cbn [scanned]. destruct (cutoff_fires i l) eqn:Hl; cbn [length]; intros Hlt.
  - exists 0%nat. cbn [nth]. now rewrite Z.add_0_r.
  - destruct (IH (i + 1)) as [n [Hn Hf]]; [lia|].
    exists (S n). rewrite Hn. split; [reflexivity|].
    cbn [nth]. now replace (i + Z.of_nat (S n)) with (i + 1 + Z.of_nat n) by lia.
Qed.

Lemma last_snd_cons (p : Z * Z) (pre : list (Z * Z)) (c : Z) :
  last (map snd (p :: pre)) c = last (map snd pre) (snd p).
Proof.
  revert p c. induction pre as [|q pre IH]; intros p c; [reflexivity|].
  transitivity (last (map snd (q :: pre)) c); [reflexivity|].
  now rewrite (IH q c), (IH q (snd p)).
Qed.

(** In the log of the scanned prefix, an entry above the cutoff that
    changes the counter is the last one. *)
Lemma running_scanned_last (lines : list str) (i c : Z)
      (pre post : list (Z * Z)) (j bc : Z) :
  running i c (scanned i lines) = pre ++ (j, bc) :: post ->
  1300 < j ->
  bc <> last (map snd pre) c ->
  post = [].
Proof.
  revert i c pre. induction lines as [|l lines IH]; intros i c pre Hrun Hj Hbc.
  - destruct pre; discriminate Hrun.
  - cbn [scanned] in Hrun. destruct (cutoff_fires i l) eqn:Hl.
    + cbn [running] in Hrun. destruct pre as [|p pre].
      * now injection Hrun as _ _ <-.
      * destruct pre; discriminate Hrun.
    + cbn [running] in Hrun. destruct pre as [|p pre].
      * cbn [app] in Hrun. injection Hrun as <- <- _. cbn in Hbc.
        unfold cutoff_fires in Hl.
        apply andb_false_iff in Hl as [Hl|Hl].
        -- apply negb_false_iff, Z.eqb_eq in Hl. lia.
        -- rewrite Z.gtb_ltb in Hl. apply Z.ltb_ge in Hl. lia.
      * cbn [app] in Hrun. injection Hrun as Hp Hrun. subst p.
        apply (IH _ _ _ Hrun Hj).
        now rewrite last_snd_cons in Hbc.
Qed.

End Scanned.

(** ** The loop of [debug_braces_full.py] *)

Section Streaming.

Import debug_braces_full.

Lemma streaming_for_char (line : str) (bc : Z) :
  for_char line bc = bc + balance line.
Proof.
  revert bc. induction line as [|x line IH]; intros bc.
  - cbn. lia.
  - cbn [for_char]. rewrite balance_cons.
    destruct (x =? LBRACE)%N; [rewrite IH; lia|].
    destruct (x =? RBRACE)%N; rewrite IH; lia.
Qed.

Lemma changed_iff (c b : Z) : negb (c =? c + b) = negb (b =? 0).
Proof. f_equal. destruct (Z.eqb_spec c (c + b)), (Z.eqb_spec b 0); lia. Qed.

Lemma streaming_body_break (i : Z) (line : str) (s : state) :
  snd (body i line s) = cutoff_fires i line.
Proof.
  unfold body, cutoff_fires. rewrite streaming_for_char, changed_iff.
  now destruct (negb (balance line =? 0)).
Qed.

Lemma streaming_body_count (i : Z) (line : str) (s : state) :
  brace_count (fst (body i line s)) = brace_count s + balance line.
Proof.
  unfold body. rewrite streaming_for_char.
  now destruct (negb (brace_count s =? brace_count s + balance line)).
Qed.

Lemma streaming_body_seen (i : Z) (line : str) (s : state) :
  seen (fst (body i line s))
  = seen s ++ [(i, brace_count s + balance line)].
Proof.
  unfold body. rewrite streaming_for_char.
  now destruct (negb (brace_count s =? brace_count s + balance line)).
Qed.

Lemma streaming_for_lines (lines : list str) (i : Z) (s : state) :
  brace_count (for_lines i lines s)
  = brace_count s + balance (concat (scanned i lines))
  /\ seen (for_lines i lines s)
     = seen s ++ running i (brace_count s) (scanned i lines).
Proof.
  revert i s. induction lines as [|l lines IH]; intros i s.
  - cbn. rewrite app_nil_r. split; [lia|reflexivity].
  - cbn [for_lines scanned].
    pose proof (streaming_body_break i l s) as Hb.
    pose proof (streaming_body_count i l s) as Hc.
    pose proof (streaming_body_seen i l s) as Hs.
    destruct (body i l s) as [s' brk]. cbn [fst snd] in Hb, Hc, Hs.
    rewrite <- Hb. destruct brk.
    + cbn [concat running]. rewrite app_nil_r, Hc, Hs. now split.
    + destruct (IH (i + 1) s') as [IHc IHs].
      rewrite IHc, IHs, Hc, Hs. cbn [concat running].
      rewrite balance_app, <- app_assoc. split; [lia|reflexivity].
Qed.

End Streaming.

(** ** Reading the lines *)

Section Reading.

Lemma concat_split_lines (t : str) : concat (split_lines t) = t.
Proof.
  induction t as [|c t IH]; [reflexivity|].
  cbn [split_lines]. destruct (c =? LF)%N.
  - cbn [concat app]. now rewrite IH.
  - destruct (split_lines t) as [|l ls]; cbn [concat app] in *.
    + now rewrite <- IH.
    + now rewrite <- IH.
Qed.

Lemma balance_newline (c : char) (t : str) :
  c = CR \/ c = LF -> balance (c :: t) = balance t.
Proof. intros [->| ->]; now rewrite balance_cons. Qed.

Lemma universal_newlines_cons (c : char) (t : str) :
  universal_newlines (c :: t)
  = if (c =? CR)%N then
      LF :: match t with
            | [] => []
            | c' :: t' =>
                if (c' =? LF)%N then universal_newlines t'
                else universal_newlines t
            end
    else c :: universal_newlines t.
Proof. reflexivity. Qed.

(** Reading ["\r\n"] and ["\r"] as ["\n"] moves no brace. *)
Lemma balance_universal_newlines (t : str) :
  balance (universal_newlines t) = balance t.
Proof.
  enough (H : balance (universal_newlines t) = balance t
              /\ forall c, balance (universal_newlines (c :: t))
                           = balance (c :: t)) by apply H.
  induction t as [|c' t [IH1 IH2]].
  - split; [reflexivity|]. intros c. cbn [universal_newlines].
    destruct (N.eqb_spec c CR) as [->|]; reflexivity.
  - split; [apply IH2|]. intros c.
    rewrite (universal_newlines_cons c).
    destruct (N.eqb_spec c CR) as [->|Hc].
    + rewrite !(balance_newline CR), (balance_newline LF) by auto.
      destruct (N.eqb_spec c' LF) as [->|Hc'].
      * rewrite (balance_newline LF) by auto. exact IH1.
      * apply IH2.
    + now rewrite !(balance_cons c), IH2.
Qed.

(** The lines [f.readlines()] returns hold the braces of the decoded text. *)
Lemma balance_readlines (w : World) (f : list byte) (lines : list str) :
  readlines w f = Return lines ->
  exists t, decode w f = Some t /\ balance (concat lines) = balance t.
Proof.
  unfold readlines. destruct (decode w f) as [t|]; [|discriminate].
  intros [= <-]. exists t. split; [reflexivity|].
  now rewrite concat_split_lines, balance_universal_newlines.
Qed.

End Reading.

(** ** What the two scripts compute *)

Section Scripts.

Lemma cutoff_fires_true (i : Z) (line : str) :
  cutoff_fires i line = true <-> balance line <> 0 /\ 1300 < i.
Proof.
  unfold cutoff_fires. rewrite andb_true_iff, negb_true_iff, Z.eqb_neq.
  rewrite Z.gtb_ltb, Z.ltb_lt. tauto.
Qed.

Lemma cutoff_fires_false (i : Z) (line : str) :
  cutoff_fires i line = false -> 1300 < i -> balance line = 0.
Proof.
  intros Hf Hi. destruct (Z.eq_dec (balance line) 0) as [|Hne]; [assumption|].
  assert (cutoff_fires i line = true) by now apply cutoff_fires_true.
  congruence.
Qed.

Lemma windowed_script (lines : list str) :
  debug_braces.script lines
  = {| debug_braces.brace_count := balance (concat lines);
       debug_braces.line_braces := changes 1 0 lines;
       debug_braces.stdout :=
         debug_braces.for_records (changes 1 0 lines) [debug_braces.header]
         ++ [debug_braces.final_message (balance (concat lines))];
       debug_braces.seen := running 1 0 lines |}.
Proof.
  unfold debug_braces.script. rewrite windowed_for_lines. reflexivity.
Qed.

Lemma streaming_script (lines : list str) :
  debug_braces_full.brace_count (debug_braces_full.script lines)
  = balance (concat (scanned 1 lines))
  /\ debug_braces_full.seen (debug_braces_full.script lines)
     = running 1 0 (scanned 1 lines).
Proof.
  unfold debug_braces_full.script.
  destruct (streaming_for_lines lines 1
              (debug_braces_full.print debug_braces_full.header
                 debug_braces_full.init)) as [Hc Hs].
  cbn [debug_braces_full.print debug_braces_full.brace_count
       debug_braces_full.seen]. now rewrite Hc, Hs.
Qed.

(** On a file that opens and decodes to the text [t],
    [debug_braces.py] ends with the counter at the balance of [t]. *)
Lemma windowed_main_whole_file (w : World) (f : list byte) (t : str) :
  open w debug_braces.path = Return f ->
  decode w f = Some t ->
  exists s, debug_braces.main w = Return s
            /\ debug_braces.brace_count s = balance t.
Proof.
  intros Hopen Hdec. unfold debug_braces.main, readlines.
  rewrite Hopen. cbn [bind]. rewrite Hdec. cbn [bind].
  eexists. split; [reflexivity|].
  rewrite windowed_script. cbn [debug_braces.brace_count].
  now rewrite concat_split_lines, balance_universal_newlines.
Qed.

(** Lines above 1300 are read as long as none changes the counter: on 1400
    empty lines, [debug_braces_full.py] runs the loop body 1400 times. *)
Example scan_runs_past_1300_on_quiet_lines :
  length (debug_braces_full.seen
            (debug_braces_full.script (padded 1400 []))) = 1400%nat.
Proof. vm_compute. reflexivity. Qed.

(** Whether a file decodes depends on the locale: the byte [0xFF] is no
    UTF-8, and is the character U+00FF under Latin-1. *)
Example latin1_reads_byte_ff :
  utf8_decode [xff] = None /\ latin1_decode [xff] = Some [255%N].
Proof. split; reflexivity. Qed.

Lemma length_running (lines : list str) (i c : Z) :
  length (running i c lines) = length lines.
Proof. now rewrite running_spec, length_map, length_seq. Qed.

(** The log of [debug_braces_full.py] has one entry per line of the scanned
    prefix. *)
Lemma streaming_seen_length (lines : list str) :
  length (debug_braces_full.seen (debug_braces_full.script lines))
  = length (scanned 1 lines).
Proof.
  destruct (streaming_script lines) as [_ ->]. apply length_running.
Qed.

Lemma map_fst_running (lines : list str) (i c : Z) :
  map fst (running i c lines)
  = map (fun k => i + Z.of_nat k - 1) (seq 1 (length lines)).
Proof. rewrite running_spec, map_map. reflexivity. Qed.

End Scripts.

(** ** Properties of the scripts *)

(** C5.  After the body of the outer loop has run for line [k], the counter
    holds the number of [{] minus the number of [}] of lines 1 to [k]: the
    log of [debug_braces.py] has this entry for every line of the file, the
    log of [debug_braces_full.py] for every line it read, which are the
    first lines of the file.  The inner loop adds 1 for each [{], subtracts
    1 for each [}], and leaves the counter alone on any other character. *)
Theorem counter_invariant (lines : list str) :
  (forall c bc,
     debug_braces_full.for_char [c] bc
     = if (c =? LBRACE)%N then bc + 1
       else if (c =? RBRACE)%N then bc - 1 else bc)
  /\ (forall c bc lbc,
        fst (debug_braces.for_char [c] (bc, lbc))
        = if (c =? LBRACE)%N then bc + 1
          else if (c =? RBRACE)%N then bc - 1 else bc)
  /\ (forall line bc,
        debug_braces_full.for_char line bc
        = bc + (occurrences LBRACE line - occurrences RBRACE line))
  /\ (forall line bc lbc,
        fst (debug_braces.for_char line (bc, lbc))
        = bc + (occurrences LBRACE line - occurrences RBRACE line))
  /\ debug_braces.seen (debug_braces.script lines)
     = map (fun k => (Z.of_nat k, balance_upto lines k))
           (seq 1 (length lines))
  /\ (let log := debug_braces_full.seen (debug_braces_full.script lines) in
      (length log <= length lines)%nat
      /\ log = map (fun k => (Z.of_nat k, balance_upto lines k))
                   (seq 1 (length log))).
Proof.
  split; [|split; [|split; [|split; [|split]]]].
  - intros c bc. cbn. now destruct (c =? LBRACE)%N, (c =? RBRACE)%N.
  - intros c bc lbc. cbn. now destruct (c =? LBRACE)%N, (c =? RBRACE)%N.
  - intros line bc. apply streaming_for_char.
  - intros line bc lbc. now rewrite windowed_for_char.
  - rewrite windowed_script. cbn [debug_braces.seen].
    rewrite running_spec. apply map_ext. intros k.
    apply (f_equal2 pair); lia.
  - cbv zeta. rewrite streaming_seen_length.
    split; [apply scanned_length|].
    destruct (streaming_script lines) as [_ ->].
    rewrite running_spec. apply map_ext_in. intros k Hk.
    apply in_seq_1 in Hk. apply (f_equal2 pair); [lia|].
    unfold balance_upto. rewrite (scanned_prefix lines 1) at 1.
    rewrite firstn_firstn. now rewrite Nat.min_l by lia.
Qed.

(** C1 fails for [debug_braces_full.py] on a file with braces after line
    1301.  The file has 1300 empty lines, then a line [{], then a line [}]:
    its braces are balanced, and the script ends with the counter at 1. *)
Lemma final_brace_count_cut_short :
  let content := repeat x0a 1300 ++ [x7b; x0a; x7d; x0a] in
  option_map balance (utf8_decode content) = Some 0
  /\ exists s, debug_braces_full.main (utf8_file content) = Return s
               /\ debug_braces_full.brace_count s = 1.
Proof.
  split; [vm_compute; reflexivity|].
  eexists. split; [vm_compute; reflexivity|reflexivity].
Qed.

(** C1, amended.  [debug_braces.py] ends with the counter at the number of
    [{] minus the number of [}] of the whole file.  [debug_braces_full.py]
    ends with the counter at that balance for lines 1 to [n], the lines it
    read: [n] is the number of the first line above 1300 that changes the
    counter, or the number of lines of the file when there is none; for a
    file of at most 1301 lines this is the whole file. *)
Theorem final_brace_count (lines : list str) :
  debug_braces.brace_count (debug_braces.script lines)
  = balance (concat lines)
  /\ (let n := length (debug_braces_full.seen
                           (debug_braces_full.script lines)) in
      (n <= length lines)%nat
      /\ debug_braces_full.brace_count (debug_braces_full.script lines)
         = balance_upto lines n
      /\ (forall k, 1300 < Z.of_nat k -> (k < n)%nat ->
                    balance (line_at lines k) = 0)
      /\ ((n < length lines)%nat ->
          1300 < Z.of_nat n /\ balance (line_at lines n) <> 0))
  /\ (Z.of_nat (length lines) <= 1301 ->
      debug_braces_full.brace_count (debug_braces_full.script lines)
      = balance (concat lines)).
Proof.
  assert (Hfull : debug_braces_full.brace_count (debug_braces_full.script lines)
                  = balance_upto lines (length (scanned 1 lines))).
  { destruct (streaming_script lines) as [-> _].
    unfold balance_upto. now rewrite <- scanned_prefix. }
  assert (Hstop : (length (scanned 1 lines) < length lines)%nat ->
                  1300 < Z.of_nat (length (scanned 1 lines))
                  /\ balance (line_at lines (length (scanned 1 lines))) <> 0).
  { intros Hlt. destruct (scanned_stop lines 1 Hlt) as [m [Hm Hf]].
    rewrite Hm. apply cutoff_fires_true in Hf as [Hb Hi].
    unfold line_at. replace (S m - 1)%nat with m by lia. split; [lia|assumption]. }
  split; [|split].
  - now rewrite windowed_script.
  - cbv zeta. rewrite streaming_seen_length.
    split; [apply scanned_length|]. split; [exact Hfull|].
    split; [|exact Hstop].
    intros k Hk Hlt. unfold line_at.
    apply (cutoff_fires_false (1 + Z.of_nat (k - 1))); [|lia].
    apply scanned_quiet. lia.
  - intros Hlen. rewrite Hfull.
    pose proof (scanned_length lines 1) as Hle.
    destruct (Nat.eq_dec (length (scanned 1 lines)) (length lines)) as [->|Hne].
    + apply balance_upto_all.
    + destruct Hstop as [Hn _]; lia.
Qed.

(** C2.  In the log of [debug_braces_full.py], an entry for a line numbered
    above 1300 on which the counter changed (the lines on which the test
    [i > 1300] is reached and holds) is the last entry: the body of the loop
    runs for no later line, and the lines it ran for are lines 1 to [j]. *)
Theorem cutoff_ends_scan (lines : list str) (pre post : list (Z * Z))
        (j bc : Z) :
  debug_braces_full.seen (debug_braces_full.script lines)
  = pre ++ (j, bc) :: post ->
  1300 < j ->
  bc <> last (map snd pre) 0 ->
  post = []
  /\ map fst (debug_braces_full.seen (debug_braces_full.script lines))
     = map Z.of_nat (seq 1 (Z.to_nat j)).
Proof.
  intros Hseen Hj Hbc.
  destruct (streaming_script lines) as [_ Hrun].
  assert (Hpost : post = []).
  { rewrite Hrun in Hseen. exact (running_scanned_last _ _ _ _ _ _ _ Hseen Hj Hbc). }
  split; [exact Hpost|]. subst post.
  assert (Hfst : map fst (running 1 0 (scanned 1 lines))
                 = map Z.of_nat (seq 1 (length (scanned 1 lines)))).
  { rewrite map_fst_running. apply map_ext. intros k. lia. }
  rewrite Hrun, Hfst.
  assert (Hlen : length (scanned 1 lines) = S (length pre)).
  { pose proof (f_equal (@length Z) Hfst) as HL.
    rewrite !length_map, length_seq in HL.
    rewrite <- HL, <- Hrun, Hseen, length_app. cbn [length]. lia. }
  assert (Hlast : j = Z.of_nat (S (length pre))).
  { pose proof Hfst as H. rewrite <- Hrun, Hseen, Hlen, map_app in H.
    rewrite seq_S, map_app in H. cbn [map fst] in H.
    apply (f_equal (@rev Z)) in H. rewrite !rev_app_distr in H.
    cbn [rev app] in H. now injection H. }
  rewrite Hlen, Hlast. now rewrite Nat2Z.id.
Qed.

(** The hypotheses of C2 hold on the file of 1300 empty lines followed by a
    line [{] and a line [}]: line 1301 is the last line read. *)
Lemma cutoff_ends_scan_witness :
  let lines := padded 1300 [lit "{" ++ [LF]; lit "}" ++ [LF]] in
  let pre := map (fun k => (Z.of_nat k, 0)) (seq 1 1300) in
  debug_braces_full.seen (debug_braces_full.script lines)
  = pre ++ [(1301, 1)]
  /\ map fst (debug_braces_full.seen (debug_braces_full.script lines))
     = map Z.of_nat (seq 1 1301).
Proof.
  cbv zeta.
  assert (H1 : debug_braces_full.seen
                 (debug_braces_full.script
                    (padded 1300 [lit "{" ++ [LF]; lit "}" ++ [LF]]))
               = map (fun k => (Z.of_nat k, 0)) (seq 1 1300) ++ [(1301, 1)])
    by (vm_compute; reflexivity).
  assert (H2 : 1300 < 1301) by lia.
  assert (H3 : 1 <> last (map snd (map (fun k => (Z.of_nat k, 0)) (seq 1 1300))) 0)
    by (vm_compute; discriminate).
  split; [exact H1|].
  exact (proj2 (cutoff_ends_scan _ _ _ _ _ H1 H2 H3)).
Defined.



(** C7.  On the file ["{\n}\n"] both scripts run to the end; the counter is
    1 after line 1 and 0 after line 2, and 0 at the end. *)
Theorem two_line_example :
  (exists s, debug_braces.main (utf8_file [x7b; x0a; x7d; x0a]) = Return s
             /\ debug_braces.seen s = [(1, 1); (2, 0)]
             /\ map (fun r => let '(_, _, total, _) := r in total)
                    (debug_braces.line_braces s) = [1; 0]
             /\ debug_braces.brace_count s = 0)
  /\ (exists s, debug_braces_full.main (utf8_file [x7b; x0a; x7d; x0a])
                = Return s
                /\ debug_braces_full.seen s = [(1, 1); (2, 0)]
                /\ debug_braces_full.brace_count s = 0).
Proof.
  split; eexists; (split; [vm_compute; reflexivity|]); repeat split.
Qed.

(** C8.  On the file ["{{\n"], [debug_braces.py] collects exactly one change
    record, for line 1, with delta +2 and cumulative count 2, and prints
    nothing of it (line 1 is below the window); [debug_braces_full.py]
    prints that one change. *)
Theorem double_brace_example :
  (exists s, debug_braces.main (utf8_file [x7b; x7b; x0a]) = Return s
             /\ debug_braces.line_braces s = [(1, 2, 2, lit "{{")]
             /\ debug_braces.stdout s
                = [debug_braces.header;
                   lit "Final brace count at line 1280: 2"])
  /\ (exists s, debug_braces_full.main (utf8_file [x7b; x7b; x0a]) = Return s
                /\ debug_braces_full.stdout s
                   = [debug_braces_full.header;
                      lit "Line 1: +2 (total: 2) - {{";
                      debug_braces_full.final_message 2]).
Proof.
  split; eexists; (split; [vm_compute; reflexivity|]); repeat split.
Qed.

(** C9.  A line that holds neither [{] nor [}] leaves the counter as it
    was and yields no change record: the body of [debug_braces.py] appends
    nothing to [line_braces], the body of [debug_braces_full.py] prints
    nothing and does not leave the loop. *)
Theorem braceless_line_is_silent (i : Z) (line : str)
        (sA : debug_braces.state) (sB : debug_braces_full.state) :
  ~ In LBRACE line ->
  ~ In RBRACE line ->
  (debug_braces.brace_count (debug_braces.body i line sA)
   = debug_braces.brace_count sA
   /\ debug_braces.line_braces (debug_braces.body i line sA)
      = debug_braces.line_braces sA
   /\ debug_braces.stdout (debug_braces.body i line sA)
      = debug_braces.stdout sA)
  /\ (debug_braces_full.brace_count (fst (debug_braces_full.body i line sB))
      = debug_braces_full.brace_count sB
      /\ debug_braces_full.stdout (fst (debug_braces_full.body i line sB))
         = debug_braces_full.stdout sB
      /\ snd (debug_braces_full.body i line sB) = false).
Proof.
  intros HL HR. pose proof (balance_without_braces line HL HR) as Hb.
  split.
  - rewrite windowed_body.
    cbn [debug_braces.brace_count debug_braces.line_braces
         debug_braces.stdout changes].
    rewrite Hb. cbn. rewrite app_nil_r. repeat split; lia.
  - unfold debug_braces_full.body. rewrite streaming_for_char, Hb, Z.add_0_r.
    rewrite Z.eqb_refl. cbn. repeat split.
Qed.

(** The hypotheses of C9 hold on the line ["let x = 1\n"], here as line 7
    after a state with the counter at 3. *)
Lemma braceless_line_is_silent_witness :
  let line := lit "let x = 1" ++ [LF] in
  let sA := {| debug_braces.brace_count := 3;
               debug_braces.line_braces := [(2, 3, 3, lit "{{{")];
               debug_braces.stdout := [];
               debug_braces.seen := [] |} in
  let sB := {| debug_braces_full.brace_count := 3;
               debug_braces_full.stdout := [debug_braces_full.header];
               debug_braces_full.seen := [] |} in
  (~ In LBRACE line /\ ~ In RBRACE line)
  /\ debug_braces.line_braces (debug_braces.body 7 line sA)
     = [(2, 3, 3, lit "{{{")]
  /\ debug_braces_full.stdout (fst (debug_braces_full.body 7 line sB))
     = [debug_braces_full.header].
Proof.
  cbv zeta.
  assert (HL : ~ In LBRACE (lit "let x = 1" ++ [LF])).
  { vm_compute. intros H. repeat (destruct H as [H|H]; [discriminate H|]).
    exact H. }
  assert (HR : ~ In RBRACE (lit "let x = 1" ++ [LF])).
  { vm_compute. intros H. repeat (destruct H as [H|H]; [discriminate H|]).
    exact H. }
  split; [split; assumption|].
  pose proof (braceless_line_is_silent 7 (lit "let x = 1" ++ [LF])
    {| debug_braces.brace_count := 3;
       debug_braces.line_braces := [(2, 3, 3, lit "{{{")];
       debug_braces.stdout := [];
       debug_braces.seen := [] |}
    {| debug_braces_full.brace_count := 3;
       debug_braces_full.stdout := [debug_braces_full.header];
       debug_braces_full.seen := [] |} HL HR) as [[_ [HA _]] [_ [HB _]]].
  split; [exact HA|exact HB].
Defined.

(** C4, read with one expected depth for both clauses.  On the two-line
    file [class A {], [    func f() {], the second line takes the counter
    from 1 to 2, above the expected class level 1, holds [func ] and has a
    positive delta, and [debug_braces_full.py] prints it without annotation;
    and no single depth [d] agrees with the script on both lines. *)
Lemma suspicious_single_depth_fails :
  let l1 := lit "class A {" ++ [LF] in
  let l2 := lit "    func f() {" ++ [LF] in
  debug_braces_full.stdout (debug_braces_full.script [l1; l2])
  = [debug_braces_full.header;
     lit "Line 1: +1 (total: 1) - class A {";
     lit "Line 2: +1 (total: 2) - func f() {";
     debug_braces_full.final_message 2]
  /\ flagged_at_depth debug_braces_full.expected_class_level 2 1 l2
  /\ ~ (exists d,
          (debug_braces_full.suspicious 1 1 l1 <> []
           <-> flagged_at_depth d 1 1 l1)
          /\ (debug_braces_full.suspicious 2 1 l2 <> []
              <-> flagged_at_depth d 2 1 l2)).
Proof.
  cbv zeta. split; [vm_compute; reflexivity|]. split.
  - left. repeat split; vm_compute; reflexivity.
  - intros [d [[_ H1] [_ H2]]].
    assert (Hd1 : ~ flagged_at_depth d 1 1 (lit "class A {" ++ [LF])).
    { intros F. apply H1 in F. now apply F. }
    assert (Hd2 : ~ flagged_at_depth d 2 1 (lit "    func f() {" ++ [LF])).
    { intros F. apply H2 in F. now apply F. }
    unfold flagged_at_depth in Hd1, Hd2.
    assert (F1 : contains (lit "func ") (lit "class A {" ++ [LF]) = false)
      by (vm_compute; reflexivity).
    assert (F2 : contains (lit "func ") (lit "    func f() {" ++ [LF]) = true)
      by (vm_compute; reflexivity).
    destruct (Z_lt_le_dec 1 d) as [Hlt|Hle].
    + apply Hd1. right. split; [lia|exact F1].
    + apply Hd2. left. split; [lia|]. split; [exact F2|lia].
Qed.

(** C4, amended.  On a line that changes the counter,
    [debug_braces_full.py] prints the change with an annotation, which is
    the wrong-level message exactly when the counter is above the expected
    class level plus one, the line holds [func ] and the delta is positive;
    the below-class-level message exactly when the counter is below the
    expected class level and the line does not hold [func ]; and empty
    otherwise. *)
Theorem suspicious_annotation (i : Z) (line : str)
        (s : debug_braces_full.state) :
  balance line <> 0 ->
  let bc := debug_braces_full.brace_count s + balance line in
  let change := balance line in
  let func := contains (lit "func ") line in
  let high := debug_braces_full.expected_class_level + 1 < bc
              /\ func = true /\ 0 < change in
  let low := bc < debug_braces_full.expected_class_level /\ func = false in
  let ann := debug_braces_full.suspicious bc change line in
  debug_braces_full.stdout (fst (debug_braces_full.body i line s))
  = debug_braces_full.stdout s
    ++ [debug_braces_full.report i change bc (slice_to 80 (strip line)) ann]
  /\ (ann = lit " [SUSPICIOUS: function starts at wrong level]" <-> high)
  /\ (ann = lit " [SUSPICIOUS: below class level]" <-> low)
  /\ (ann = [] <-> ~ high /\ ~ low).
Proof.
  intros Hb bc change func high low ann. split.
  - unfold debug_braces_full.body.
    rewrite streaming_for_char, changed_iff.
    apply Z.eqb_neq in Hb. rewrite Hb. cbn [negb fst debug_braces_full.stdout].
    subst ann bc change. repeat f_equal; lia.
  - assert (Hhigh : (1 + 1 <? bc) && func && (0 <? change) = true <-> high).
    { subst high. unfold debug_braces_full.expected_class_level.
      rewrite !andb_true_iff, !Z.ltb_lt. tauto. }
    assert (Hlow : (bc <? 1) && negb func = true <-> low).
    { subst low. unfold debug_braces_full.expected_class_level.
      rewrite andb_true_iff, negb_true_iff, Z.ltb_lt. tauto. }
    assert (Hexcl : high -> ~ low).
    { subst high low. unfold debug_braces_full.expected_class_level. lia. }
    assert (HA : lit " [SUSPICIOUS: function starts at wrong level]" <> [])
      by (vm_compute; discriminate).
    assert (HB : lit " [SUSPICIOUS: below class level]" <> [])
      by (vm_compute; discriminate).
    assert (HAB : lit " [SUSPICIOUS: function starts at wrong level]"
                  <> lit " [SUSPICIOUS: below class level]")
      by (vm_compute; discriminate).
    assert (Hann : ann
                   = if (1 + 1 <? bc) && func && (0 <? change)
                     then lit " [SUSPICIOUS: function starts at wrong level]"
                     else if (bc <? 1) && negb func
                          then lit " [SUSPICIOUS: below class level]"
                          else []).
    { subst ann. unfold debug_braces_full.suspicious,
        debug_braces_full.expected_class_level.
      now rewrite !Z.gtb_ltb. }
    rewrite Hann. clear Hann.
    destruct ((1 + 1 <? bc) && func && (0 <? change)) eqn:Ea.
    + assert (Hh : high) by now apply Hhigh.
      pose proof (Hexcl Hh) as Hnl.
      split; [tauto|]. split; [split; [congruence|tauto]|].
      split; [congruence|tauto].
    + assert (Hnh : ~ high) by (rewrite <- Hhigh; congruence).
      destruct ((bc <? 1) && negb func) eqn:Eb.
      * assert (Hl : low) by now apply Hlow.
        split; [split; [intros E; now symmetry in E|tauto]|].
        split; [tauto|]. split; [congruence|tauto].
      * assert (Hnl : ~ low) by (rewrite <- Hlow; congruence).
        split; [split; [intros E; now symmetry in E|tauto]|].
        split; [split; [intros E; now symmetry in E|tauto]|]. tauto.
Qed.

(** The hypothesis of C4 holds on the line [    func g() { {], read as
    line 12 with the counter at 2: the annotation is the wrong-level
    message. *)
Lemma suspicious_annotation_witness :
  let line := lit "    func g() { {" ++ [LF] in
  let s := {| debug_braces_full.brace_count := 2;
              debug_braces_full.stdout := [];
              debug_braces_full.seen := [] |} in
  balance line <> 0
  /\ debug_braces_full.stdout (fst (debug_braces_full.body 12 line s))
     = [lit "Line 12: +2 (total: 4) - func g() { { [SUSPICIOUS: function starts at wrong level]"].
Proof.
  cbv zeta.
  assert (Hb : balance (lit "    func g() { {" ++ [LF]) <> 0)
    by (vm_compute; discriminate).
  split; [exact Hb|].
  rewrite (proj1 (suspicious_annotation 12 (lit "    func g() { {" ++ [LF])
                    {| debug_braces_full.brace_count := 2;
                       debug_braces_full.stdout := [];
                       debug_braces_full.seen := [] |} Hb)).
  vm_compute. reflexivity.
Defined.




(** ** Further properties of [debug_braces.py] *)

Section Records.

Lemma changes_app (l1 l2 : list str) (i c : Z) :
  changes i c (l1 ++ l2)
  = changes i c l1
    ++ changes (i + Z.of_nat (length l1)) (c + balance (concat l1)) l2.
Proof.
  revert i c. induction l1 as [|l l1 IH]; intros i c.
  - cbn. now rewrite !Z.add_0_r.
  - cbn [app changes length concat]. rewrite IH, balance_app, <- app_assoc.
    do 2 f_equal. f_equal; lia.
Qed.

Lemma changes_quiet (q : list str) (i c : Z) :
  Forall (fun l => balance l = 0) q -> changes i c q = [].
Proof.
  intros Hq. revert i c. induction Hq as [|l q Hl _ IH]; intros i c.
  - reflexivity.
  - cbn [changes]. rewrite Hl. cbn. apply IH.
Qed.

Lemma balance_concat_quiet (q : list str) :
  Forall (fun l => balance l = 0) q -> balance (concat q) = 0.
Proof.
  induction 1 as [|l q Hl _ IH]; [reflexivity|].
  cbn [concat]. rewrite balance_app. lia.
Qed.

Lemma changes_numbers (lines : list str) (i c : Z) :
  Forall (fun r => i <= line_number r < i + Z.of_nat (length lines)
                   /\ delta r <> 0)
         (changes i c lines).
Proof.
  revert i c. induction lines as [|l lines IH]; intros i c; [constructor|].
  cbn [changes]. apply Forall_app. split.
  - destruct (Z.eqb_spec (balance l) 0) as [|Hne]; cbn [negb]; constructor;
      [|constructor].
    cbn [line_number delta length]. split; [lia|exact Hne].
  - eapply Forall_impl; [|apply IH]. cbn [length].
    intros r [Hr Hd]. split; [lia|exact Hd].
Qed.

Lemma changes_sorted (lines : list str) (i c : Z) :
  StronglySorted Z.lt (map line_number (changes i c lines)).
Proof.
  revert i c. induction lines as [|l lines IH]; intros i c; [constructor|].
  cbn [changes].
  destruct (negb (balance l =? 0)); cbn [app map]; [|apply IH].
  constructor; [apply IH|]. cbn [line_number].
  apply Forall_map. eapply Forall_impl; [|apply changes_numbers].
  cbn beta. intros r [Hr _]. lia.
Qed.

Lemma changes_chained (lines : list str) (i c : Z) :
  chained c (changes i c lines).
Proof.
  revert i c. induction lines as [|l lines IH]; intros i c; [exact I|].
  cbn [changes].
  destruct (Z.eqb_spec (balance l) 0) as [Hz|Hne]; cbn [negb app].
  - rewrite Hz, Z.add_0_r. apply IH.
  - cbn [chained total delta]. split; [reflexivity|apply IH].
Qed.

Lemma changes_sum (lines : list str) (i c : Z) :
  fold_right (fun r acc => delta r + acc) 0 (changes i c lines)
  = balance (concat lines).
Proof.
  revert i c. induction lines as [|l lines IH]; intros i c; [reflexivity|].
  cbn [changes concat]. rewrite fold_right_app, balance_app, IH.
  destruct (Z.eqb_spec (balance l) 0) as [Hz|Hne]; cbn; lia.
Qed.

Lemma last_cons_default {A : Type} (x : A) (l : list A) (d : A) :
  last (x :: l) d = last l x.
Proof.
  revert x d. induction l as [|y l IH]; intros x d; [reflexivity|].
  transitivity (last (y :: l) d); [reflexivity|].
  now rewrite (IH y d), (IH y x).
Qed.

Lemma chained_last (recs : list debug_braces.record) (c : Z) :
  chained c recs ->
  last (map total recs) c
  = c + fold_right (fun r acc => delta r + acc) 0 recs.
Proof.
  revert c. induction recs as [|r recs IH]; intros c Hc.
  - cbn. lia.
  - destruct Hc as [Hr Hc]. cbn [map fold_right].
    rewrite last_cons_default, (IH _ Hc). lia.
Qed.

End Records.

(** X1.  The change records [debug_braces.py] collects are numbered by
    lines of the file, in strictly increasing order, and each has a delta
    that is not zero. *)
Theorem records_numbered (lines : list str) :
  let recs := debug_braces.line_braces (debug_braces.script lines) in
  StronglySorted Z.lt (map line_number recs)
  /\ Forall (fun r => 1 <= line_number r <= Z.of_nat (length lines)
                      /\ delta r <> 0) recs.
Proof.
  cbv zeta. rewrite windowed_script. cbn [debug_braces.line_braces]. split.
  - apply changes_sorted.
  - eapply Forall_impl; [|apply changes_numbers].
    cbn beta. intros r [Hr Hd]. split; [lia|exact Hd].
Qed.

(** X2.  The running totals of the change records of [debug_braces.py]
    chain: the first total is the first delta, each later total is the one
    before plus the record's delta; the deltas add up to the final counter,
    which is the total of the last record (0 when there is none). *)
Theorem records_chain (lines : list str) :
  let s := debug_braces.script lines in
  let recs := debug_braces.line_braces s in
  chained 0 recs
  /\ fold_right (fun r acc => delta r + acc) 0 recs
     = debug_braces.brace_count s
  /\ last (map total recs) 0 = debug_braces.brace_count s.
Proof.
  cbv zeta. rewrite windowed_script.
  cbn [debug_braces.line_braces debug_braces.brace_count].
  pose proof (changes_chained lines 1 0) as Hc.
  pose proof (changes_sum lines 1 0) as Hs.
  split; [exact Hc|]. split; [exact Hs|].
  rewrite (chained_last _ _ Hc), Hs. lia.
Qed.

Section Window.

Lemma through_split {A : Type} (p : A -> bool) (l : list A) :
  exists pre tl rest,
    through p l = pre ++ tl
    /\ l = pre ++ tl ++ rest
    /\ Forall (fun x => p x = false) pre
    /\ (length tl <= 1)%nat.
Proof.
  induction l as [|x l (pre & tl & rest & Ht & Hl & Hpre & Htl)].
  - exists [], [], []. repeat split; [constructor | cbn; lia].
  - cbn [through]. destruct (p x) eqn:Hx.
    + exists [], [x], l. repeat split; [constructor | cbn; lia].
    + exists (x :: pre), tl, rest. cbn [app]. rewrite Ht, <- Hl.
      repeat split; [now constructor | exact Htl].
Qed.

Lemma in_through {A : Type} (p : A -> bool) (l : list A) (x : A) :
  In x (through p l) -> In x l.
Proof.
  induction l as [|y l IH]; [easy|]. cbn [through].
  destruct (p y); cbn [In]; [tauto|]. intros [->|H]; [now left|].
  right. now apply IH.
Qed.

Lemma filter_none {A : Type} (q : A -> bool) (l : list A) :
  (forall x, In x l -> q x = false) -> filter q l = [].
Proof.
  induction l as [|x l IH]; intros H; [reflexivity|].
  cbn [filter]. rewrite (H x) by now left.
  apply IH. intros y Hy. apply H. now right.
Qed.

(** The records of the lines numbered from [a] to [b - 1] are at most
    [b - a]. *)
Lemma changes_window (a b : Z) (lines : list str) (i c : Z) :
  Z.of_nat (length (filter (fun r => (a <=? line_number r)
                                     && (line_number r <? b))
                           (changes i c lines)))
  <= Z.max 0 (b - Z.max a i).
Proof.
  revert i c. induction lines as [|l lines IH]; intros i c;
    [cbn [changes filter length]; lia|].
  cbn [changes]. rewrite filter_app, length_app, Nat2Z.inj_add.
  specialize (IH (i + 1) (c + balance l)).
  unfold debug_braces.record in *.
  destruct (negb (balance l =? 0)); cbn [filter]; [|cbn [length]; lia].
  change (line_number (i, balance l, c + balance l, strip l)) with i.
  destruct (Z.leb_spec a i), (Z.ltb_spec i b); cbn [andb length]; lia.
Qed.

End Window.

(** X3.  After the header and before the final message, [debug_braces.py]
    prints records numbered at least 1200; all of them but the last are
    numbered below 1280; and they are at most 81, so the output has at most
    83 lines whatever the size of the file. *)
Theorem window_bounds (lines : list str) :
  let s := debug_braces.script lines in
  exists printed,
    debug_braces.stdout s
    = [debug_braces.header] ++ map debug_braces.report printed
      ++ [debug_braces.final_message (debug_braces.brace_count s)]
    /\ Forall (fun r => 1200 <= line_number r) printed
    /\ (forall pre r, printed = pre ++ [r] ->
                      Forall (fun x => line_number x < 1280) pre)
    /\ (length printed <= 81)%nat
    /\ (length (debug_braces.stdout s) <= 83)%nat.
Proof.
  cbv zeta. rewrite windowed_script.
  cbn [debug_braces.stdout debug_braces.brace_count].
  rewrite for_records_spec.
  set (recs := changes 1 0 lines).
  set (q := fun r : debug_braces.record => line_number r >=? 1200).
  set (p := fun r : debug_braces.record => line_number r >=? 1280).
  exists (filter q (through p recs)).
  assert (Hq : Forall (fun r => 1200 <= line_number r)
                      (filter q (through p recs))).
  { apply Forall_forall. intros r Hr. apply filter_In in Hr as [_ Hr].
    unfold q in Hr. rewrite Z.geb_leb in Hr. now apply Z.leb_le. }
  destruct (through_split p recs) as (pre0 & tl & rest & Ht & Hl & Hpre & Htl).
  assert (Hlow : Forall (fun x => line_number x < 1280) (filter q pre0)).
  { apply Forall_forall. intros r Hr. apply filter_In in Hr as [Hr _].
    rewrite Forall_forall in Hpre. specialize (Hpre r Hr).
    unfold p in Hpre. rewrite Z.geb_leb in Hpre. now apply Z.leb_gt. }
  assert (Hlen : (length (filter q pre0) <= 80)%nat).
  { assert (Hext : filter q pre0
                   = filter (fun r => (1200 <=? line_number r)
                                      && (line_number r <? 1280)) pre0).
    { apply filter_ext_in. intros r Hr.
      rewrite Forall_forall in Hpre. specialize (Hpre r Hr).
      unfold q, p in *. rewrite Z.geb_leb in *.
      apply Z.leb_gt in Hpre. apply Z.ltb_lt in Hpre. rewrite Hpre.
      now rewrite andb_true_r. }
    pose proof (changes_window 1200 1280 lines 1 0) as Hw.
    fold recs in Hw. rewrite Hl, filter_app, length_app in Hw.
    rewrite Hext. lia. }
  assert (Hprinted : (length (filter q (through p recs)) <= 81)%nat).
  { rewrite Ht, filter_app, length_app.
    pose proof (filter_length_le q tl). lia. }
  split; [now rewrite <- app_assoc|]. split; [exact Hq|].
  split; [|split; [exact Hprinted|]].
  - intros pre r Hp. rewrite Ht, filter_app in Hp.
    destruct tl as [|x [|y tl]]; [| |cbn in Htl; lia].
    + cbn [filter] in Hp. rewrite app_nil_r in Hp. rewrite Hp in Hlow.
      apply Forall_app in Hlow. tauto.
    + cbn [filter] in Hp. destruct (q x).
      * apply app_inj_tail in Hp as [<- _]. exact Hlow.
      * rewrite app_nil_r in Hp. rewrite Hp in Hlow.
        apply Forall_app in Hlow. tauto.
  - rewrite <- app_assoc. cbn [app length].
    rewrite length_app, length_map. cbn [length]. lia.
Qed.

(** X4.  On a file of fewer than 1200 lines, [debug_braces.py] prints the
    header and the final counter message and no record. *)
Theorem short_file_prints_no_record (lines : list str) :
  Z.of_nat (length lines) < 1200 ->
  debug_braces.stdout (debug_braces.script lines)
  = [debug_braces.header;
     debug_braces.final_message (balance (concat lines))].
Proof.
  intros Hlen. rewrite windowed_script. cbn [debug_braces.stdout].
  rewrite for_records_spec, filter_none; [reflexivity|].
  intros r Hr. apply in_through in Hr.
  pose proof (changes_numbers lines 1 0) as Hn.
  rewrite Forall_forall in Hn. destruct (Hn r Hr) as [Hnum _].
  rewrite Z.geb_leb. apply Z.leb_gt. lia.
Qed.

(** The hypothesis of X4 holds on the two-line file [{], [  }  x]. *)
Lemma short_file_prints_no_record_witness :
  let lines := [lit "{" ++ [LF]; lit "  }  x" ++ [LF]] in
  Z.of_nat (length lines) < 1200
  /\ debug_braces.stdout (debug_braces.script lines)
     = [debug_braces.header; lit "Final brace count at line 1280: 0"].
Proof.
  cbv zeta.
  assert (H : Z.of_nat (length [lit "{" ++ [LF]; lit "  }  x" ++ [LF]]) < 1200)
    by (cbn; lia).
  split; [exact H|].
  rewrite (short_file_prints_no_record _ H). vm_compute. reflexivity.
Defined.

(** ** What [strip] keeps *)

Section Strip.

Lemma lstrip_In (c : char) (s : str) :
  In c s -> isspace c = false -> In c (lstrip s).
Proof.
  intros Hin Hc. induction s as [|x s IH]; [easy|].
  cbn [lstrip]. destruct (isspace x) eqn:Hx; [|exact Hin].
  destruct Hin as [->|Hin]; [congruence|]. now apply IH.
Qed.

Lemma strip_In (c : char) (s : str) :
  In c s -> isspace c = false -> In c (strip s).
Proof.
  intros Hin Hc. unfold strip, rstrip.
  apply in_rev. rewrite rev_involutive.
  apply lstrip_In; [|exact Hc]. apply -> in_rev. now apply lstrip_In.
Qed.

Lemma lstrip_head (s : str) (c : char) (r : str) :
  lstrip s = c :: r -> isspace c = false.
Proof.
  induction s as [|x s IH]; [discriminate|].
  cbn [lstrip]. destruct (isspace x) eqn:Hx; [exact IH|].
  now intros [= <- _].
Qed.

Lemma lstrip_snoc (u : str) (c : char) :
  isspace c = false -> exists w, lstrip (u ++ [c]) = w ++ [c].
Proof.
  intros Hc. induction u as [|x u [w Hw]].
  - exists []. cbn. now rewrite Hc.
  - cbn [app lstrip]. destruct (isspace x).
    + now exists w.
    + now exists (x :: u).
Qed.

Lemma rstrip_head (c : char) (r : str) :
  isspace c = false -> exists r', rstrip (c :: r) = c :: r'.
Proof.
  intros Hc. unfold rstrip. cbn [rev].
  destruct (lstrip_snoc (rev r) c Hc) as [w ->].
  exists (rev w). now rewrite rev_app_distr.
Qed.

Lemma rstrip_last (t m : str) (c : char) :
  rstrip t = m ++ [c] -> isspace c = false.
Proof.
  unfold rstrip. intros H. apply (f_equal (@rev char)) in H.
  rewrite rev_involutive, rev_app_distr in H. cbn [rev app] in H.
  exact (lstrip_head _ _ _ H).
Qed.

(** [s.strip()] has no white space at either end. *)
Lemma strip_trimmed (s : str) : trimmed (strip s).
Proof.
  split.
  - intros c r H. unfold strip in H.
    destruct (lstrip s) as [|c0 r0] eqn:Hl; [discriminate H|].
    pose proof (lstrip_head _ _ _ Hl) as Hc0.
    destruct (rstrip_head c0 r0 Hc0) as [r' Hr]. rewrite Hr in H.
    now injection H as <- _.
  - intros m c H. exact (rstrip_last _ _ _ H).
Qed.

Lemma isspace_brace : isspace LBRACE = false /\ isspace RBRACE = false.
Proof. split; reflexivity. Qed.

(** A line whose balance is not zero holds a brace. *)
Lemma unbalanced_has_brace (line : str) :
  balance line <> 0 -> In LBRACE line \/ In RBRACE line.
Proof.
  intros Hb.
  destruct (in_dec N.eq_dec LBRACE line) as [|HL]; [now left|].
  destruct (in_dec N.eq_dec RBRACE line) as [|HR]; [now right|].
  now rewrite balance_without_braces in Hb.
Qed.

Lemma changes_content (lines : list str) (i c : Z) :
  Forall (fun r => (In LBRACE (content r) \/ In RBRACE (content r))
                   /\ trimmed (content r))
         (changes i c lines).
Proof.
  revert i c. induction lines as [|l lines IH]; intros i c; [constructor|].
  cbn [changes]. apply Forall_app. split; [|apply IH].
  destruct (Z.eqb_spec (balance l) 0) as [|Hne]; cbn [negb]; constructor;
    [|constructor].
  cbn [content]. split; [|apply strip_trimmed].
  destruct (unbalanced_has_brace l Hne) as [H|H]; [left|right];
    (apply strip_In; [exact H|reflexivity]).
Qed.

End Strip.

(** X5.  The text kept in a change record of [debug_braces.py] holds a
    brace, so it is not empty, and neither begins nor ends with white
    space: the indentation and the end of line are gone. *)
Theorem record_text (lines : list str) :
  Forall (fun r => (In LBRACE (content r) \/ In RBRACE (content r))
                   /\ trimmed (content r))
         (debug_braces.line_braces (debug_braces.script lines)).
Proof.
  rewrite windowed_script. cbn [debug_braces.line_braces].
  apply changes_content.
Qed.

(** ** Further properties of [debug_braces_full.py] *)

Section Printed.

Lemma streaming_body_stdout (i : Z) (line : str)
      (s : debug_braces_full.state) :
  debug_braces_full.stdout (fst (debug_braces_full.body i line s))
  = debug_braces_full.stdout s
    ++ change_lines i (debug_braces_full.brace_count s) [line].
Proof.
  unfold debug_braces_full.body. rewrite streaming_for_char, changed_iff.
  cbn [change_lines]. rewrite app_nil_r.
  destruct (negb (balance line =? 0));
    cbn [fst debug_braces_full.stdout]; [|now rewrite app_nil_r].
  unfold change_line. repeat f_equal; lia.
Qed.

Lemma streaming_stdout (lines : list str) (i : Z)
      (s : debug_braces_full.state) :
  debug_braces_full.stdout (debug_braces_full.for_lines i lines s)
  = debug_braces_full.stdout s
    ++ change_lines i (debug_braces_full.brace_count s) (scanned i lines).
Proof.
  revert i s. induction lines as [|l lines IH]; intros i s.
  - cbn. now rewrite app_nil_r.
  - cbn [debug_braces_full.for_lines scanned].
    pose proof (streaming_body_break i l s) as Hb.
    pose proof (streaming_body_count i l s) as Hc.
    pose proof (streaming_body_stdout i l s) as Hs.
    destruct (debug_braces_full.body i l s) as [s' brk].
    cbn [fst snd] in Hb, Hc, Hs. rewrite <- Hb. destruct brk.
    + exact Hs.
    + rewrite IH, Hs, Hc. cbn [change_lines].
      now rewrite app_nil_r, <- app_assoc.
Qed.

Lemma change_line_annotated (i c : Z) (line : str) :
  change_line i c line
  = debug_braces.report (i, balance line, c + balance line, strip line)
    ++ debug_braces_full.suspicious (c + balance line) (balance line) line.
Proof.
  unfold change_line, debug_braces_full.report, debug_braces.report.
  now rewrite <- !app_assoc.
Qed.

(** The change lines of a scan are the annotated reports of its records,
    when the lines scanned sit in the file at their numbers. *)
Lemma change_lines_annotated (file lines : list str) (i c : Z) :
  (forall k, (k < length lines)%nat ->
             line_at file (Z.to_nat (i + Z.of_nat k)) = nth k lines []) ->
  change_lines i c lines = map (annotated file) (changes i c lines).
Proof.
  revert i c. induction lines as [|l lines IH]; intros i c Hat; [reflexivity|].
  cbn [change_lines changes]. rewrite map_app. f_equal.
  - destruct (negb (balance l =? 0)); [|reflexivity]. cbn [map].
    unfold annotated. cbn [line_number total delta].
    specialize (Hat 0%nat). cbn [length nth] in Hat.
    rewrite Z.add_0_r in Hat. rewrite Hat by lia.
    now rewrite change_line_annotated.
  - apply IH. intros k Hk. specialize (Hat (S k)). cbn [length nth] in Hat.
    replace (i + 1 + Z.of_nat k) with (i + Z.of_nat (S k)) by lia.
    apply Hat. lia.
Qed.

Lemma line_at_prefix (lines : list str) (n k : nat) :
  (k < n)%nat ->
  line_at lines (Z.to_nat (1 + Z.of_nat k)) = nth k (firstn n lines) [].
Proof.
  intros Hk. unfold line_at.
  replace (Z.to_nat (1 + Z.of_nat k) - 1)%nat with k by lia.
  rewrite nth_firstn. apply Nat.ltb_lt in Hk. now rewrite Hk.
Qed.

(** A file of at most 1301 lines is scanned to its end. *)
Lemma scanned_all (lines : list str) (i : Z) :
  i + Z.of_nat (length lines) <= 1302 -> scanned i lines = lines.
Proof.
  revert i. induction lines as [|l lines IH]; intros i Hlen; [reflexivity|].
  cbn [scanned]. cbn [length] in Hlen.
  destruct (cutoff_fires i l) eqn:Hf.
  - apply cutoff_fires_true in Hf as [_ Hi].
    destruct lines; [reflexivity|cbn [length] in Hlen; lia].
  - f_equal. apply IH. lia.
Qed.

End Printed.

Section Read.

(** The records of the lines read are the records of the scanned prefix. *)
Lemma read_records (lines : list str) :
  filter (fun r => line_number r <=? Z.of_nat (length (scanned 1 lines)))
         (changes 1 0 lines)
  = changes 1 0 (scanned 1 lines).
Proof.
  set (n := length (scanned 1 lines)).
  assert (Hsc : scanned 1 lines = firstn n lines) by apply scanned_prefix.
  rewrite <- (firstn_skipn n lines) at 1. rewrite <- Hsc.
  rewrite changes_app, filter_app. fold n.
  rewrite (filter_none _ (changes (1 + Z.of_nat n) _ _)).
  2:{ intros r Hr. pose proof (changes_numbers (skipn n lines)
                                 (1 + Z.of_nat n)
                                 (0 + balance (concat (scanned 1 lines)))) as Hn.
      rewrite Forall_forall in Hn. destruct (Hn r Hr) as [Hnum _].
      apply Z.leb_gt. lia. }
  rewrite app_nil_r. apply forallb_filter_id.
  apply forallb_forall. intros r Hr.
  pose proof (changes_numbers (scanned 1 lines) 1 0) as Hn.
  rewrite Forall_forall in Hn. destruct (Hn r Hr) as [Hnum _].
  apply Z.leb_le. fold n in Hnum. lia.
Qed.

Lemma streaming_stdout_records (lines : list str) :
  debug_braces_full.stdout (debug_braces_full.script lines)
  = [debug_braces_full.header]
    ++ map (annotated lines) (changes 1 0 (scanned 1 lines))
    ++ [debug_braces_full.final_message
          (balance (concat (scanned 1 lines)))].
Proof.
  unfold debug_braces_full.script.
  destruct (streaming_for_lines lines 1
              (debug_braces_full.print debug_braces_full.header
                 debug_braces_full.init)) as [Hc _].
  cbn [debug_braces_full.print debug_braces_full.stdout
       debug_braces_full.brace_count].
  rewrite streaming_stdout, Hc.
  cbn [debug_braces_full.print debug_braces_full.stdout
       debug_braces_full.brace_count debug_braces_full.init app].
  rewrite Z.add_0_l. do 2 f_equal.
  apply change_lines_annotated. intros k Hk.
  rewrite (scanned_prefix lines 1) at 1. now apply line_at_prefix.
Qed.

(** Among the records of the scanned prefix, one numbered above 1300 is
    the record of its last line. *)
Lemma changes_scanned_cutoff (lines : list str) (i c : Z) :
  Forall (fun r => 1300 < line_number r ->
                   line_number r
                   = i + Z.of_nat (length (scanned i lines)) - 1)
         (changes i c (scanned i lines)).
Proof.
  revert i c. induction lines as [|l lines IH]; intros i c; [constructor|].
  cbn [scanned]. destruct (cutoff_fires i l) eqn:Hf.
  - cbn [changes length]. rewrite app_nil_r.
    destruct (negb (balance l =? 0)); constructor; [|constructor].
    cbn [line_number]. lia.
  - cbn [changes length]. apply Forall_app. split.
    + destruct (Z.eqb_spec (balance l) 0) as [|Hne]; cbn [negb]; constructor;
        [|constructor].
      cbn [line_number]. intros Hi. exfalso.
      assert (cutoff_fires i l = true) by now apply cutoff_fires_true.
      congruence.
    + eapply Forall_impl; [|apply IH]. cbn beta. intros r Hr Hi.
      rewrite (Hr Hi). lia.
Qed.

Lemma filter_length_mono {A : Type} (f g : A -> bool) (l : list A) :
  (forall x, In x l -> f x = true -> g x = true) ->
  (length (filter f l) <= length (filter g l))%nat.
Proof.
  induction l as [|x l IH]; intros H; [reflexivity|].
  cbn [filter]. specialize (IH (fun y Hy => H y (or_intror Hy))).
  destruct (f x) eqn:Hf.
  - rewrite (H x (or_introl eq_refl) Hf). cbn [length]. lia.
  - destruct (g x); cbn [length]; lia.
Qed.

End Read.

(** X6.  [debug_braces_full.py] prints its header, then, for each change
    record [debug_braces.py] would collect from the lines read, the line
    [debug_braces.py] would print for it followed by the annotation, then
    the final message with the counter after the last line read. *)
Theorem streaming_report (lines : list str) :
  let n := length (debug_braces_full.seen (debug_braces_full.script lines)) in
  debug_braces_full.stdout (debug_braces_full.script lines)
  = [debug_braces_full.header]
    ++ map (annotated lines)
         (filter (fun r => line_number r <=? Z.of_nat n)
                 (debug_braces.line_braces (debug_braces.script lines)))
    ++ [debug_braces_full.final_message (balance_upto lines n)].
Proof.
  cbv zeta. rewrite streaming_seen_length, streaming_stdout_records.
  rewrite windowed_script. cbn [debug_braces.line_braces].
  rewrite read_records. unfold balance_upto.
  now rewrite <- scanned_prefix.
Qed.

(** X7.  Of the change lines [debug_braces_full.py] prints, at most one is
    for a line numbered above 1300, and it is for the last line read. *)
Theorem one_change_above_cutoff (lines : list str) :
  let n := length (debug_braces_full.seen (debug_braces_full.script lines)) in
  exists printed,
    debug_braces_full.stdout (debug_braces_full.script lines)
    = [debug_braces_full.header] ++ map (annotated lines) printed
      ++ [debug_braces_full.final_message (balance_upto lines n)]
    /\ Forall (fun r => 1300 < line_number r -> line_number r = Z.of_nat n)
              printed
    /\ (length (filter (fun r => (1300 <? line_number r)%Z) printed)
        <= 1)%nat.
Proof.
  cbv zeta. rewrite streaming_seen_length.
  set (n := length (scanned 1 lines)).
  exists (changes 1 0 (scanned 1 lines)).
  assert (Hlast : Forall (fun r => 1300 < line_number r ->
                                   line_number r = Z.of_nat n)
                         (changes 1 0 (scanned 1 lines))).
  { eapply Forall_impl; [|apply changes_scanned_cutoff]. cbn beta.
    intros r Hr Hi. rewrite (Hr Hi). fold n. lia. }
  split; [|split; [exact Hlast|]].
  - rewrite streaming_stdout_records. unfold balance_upto. subst n.
    now rewrite <- scanned_prefix.
  - pose proof (changes_window (Z.of_nat n) (Z.of_nat n + 1)
                  (scanned 1 lines) 1 0) as Hw.
    pose proof (filter_length_mono
                  (fun r => 1300 <? line_number r)
                  (fun r => (Z.of_nat n <=? line_number r)
                            && (line_number r <? Z.of_nat n + 1))
                  (changes 1 0 (scanned 1 lines))) as Hm.
    assert (forall x, In x (changes 1 0 (scanned 1 lines)) ->
                      (1300 <? line_number x) = true ->
                      (Z.of_nat n <=? line_number x)
                      && (line_number x <? Z.of_nat n + 1) = true) as Hx.
    { intros x Hin Hi. rewrite Forall_forall in Hlast.
      apply Z.ltb_lt in Hi. rewrite (Hlast x Hin Hi).
      rewrite Z.leb_refl. apply Z.ltb_lt. lia. }
    specialize (Hm Hx). unfold debug_braces.record in *. lia.
Qed.

(** X8.  On a file of at most 1301 lines the two scripts read the same
    lines and hold the same counter after each of them, and
    [debug_braces_full.py] prints one annotated line for every change record
    of [debug_braces.py], whatever its line number. *)
Theorem scripts_agree (lines : list str) :
  Z.of_nat (length lines) <= 1301 ->
  debug_braces_full.seen (debug_braces_full.script lines)
  = debug_braces.seen (debug_braces.script lines)
  /\ debug_braces_full.stdout (debug_braces_full.script lines)
     = [debug_braces_full.header]
       ++ map (annotated lines)
            (debug_braces.line_braces (debug_braces.script lines))
       ++ [debug_braces_full.final_message
             (debug_braces.brace_count (debug_braces.script lines))].
Proof.
  intros Hlen.
  assert (Hall : scanned 1 lines = lines) by (apply scanned_all; lia).
  split.
  - destruct (streaming_script lines) as [_ ->].
    now rewrite Hall, windowed_script.
  - unfold debug_braces_full.script.
    destruct (streaming_for_lines lines 1
                (debug_braces_full.print debug_braces_full.header
                   debug_braces_full.init)) as [Hc _].
    cbn [debug_braces_full.print debug_braces_full.stdout
         debug_braces_full.brace_count].
    rewrite streaming_stdout, Hc, Hall.
    cbn [debug_braces_full.print debug_braces_full.stdout
         debug_braces_full.brace_count debug_braces_full.init app].
    rewrite windowed_script.
    cbn [debug_braces.line_braces debug_braces.brace_count].
    rewrite Z.add_0_l. do 2 f_equal.
    apply change_lines_annotated. intros k Hk.
    rewrite <- (firstn_all lines) at 2. now apply line_at_prefix.
Qed.

(** The hypothesis of X8 holds on the three-line file [class A {],
    [  func f() { {], [}]. *)
Lemma scripts_agree_witness :
  let lines := [lit "class A {" ++ [LF]; lit "  func f() { {" ++ [LF];
                lit "}" ++ [LF]] in
  Z.of_nat (length lines) <= 1301
  /\ debug_braces_full.seen (debug_braces_full.script lines)
     = [(1, 1); (2, 3); (3, 2)]
  /\ debug_braces_full.stdout (debug_braces_full.script lines)
     = [debug_braces_full.header;
        lit "Line 1: +1 (total: 1) - class A {";
        lit "Line 2: +2 (total: 3) - func f() { { [SUSPICIOUS: function starts at wrong level]";
        lit "Line 3: -1 (total: 2) - }";
        debug_braces_full.final_message 2].
Proof.
  cbv zeta.
  assert (H : Z.of_nat (length [lit "class A {" ++ [LF];
                                lit "  func f() { {" ++ [LF];
                                lit "}" ++ [LF]]) <= 1301) by (cbn; lia).
  split; [exact H|].
  destruct (scripts_agree _ H) as [-> ->].
  split; vm_compute; reflexivity.
Defined.

(** ** Lines that leave the counter alone, and scanning in parts *)

Section Parts.

Lemma change_lines_app (l1 l2 : list str) (i c : Z) :
  change_lines i c (l1 ++ l2)
  = change_lines i c l1
    ++ change_lines (i + Z.of_nat (length l1)) (c + balance (concat l1)) l2.
Proof.
  revert i c. induction l1 as [|l l1 IH]; intros i c.
  - cbn. now rewrite !Z.add_0_r.
  - cbn [app change_lines length concat].
    rewrite IH, balance_app, <- app_assoc.
    do 2 f_equal. f_equal; lia.
Qed.

Lemma change_lines_quiet (q : list str) (i c : Z) :
  Forall (fun l => balance l = 0) q -> change_lines i c q = [].
Proof.
  intros Hq. revert i c. induction Hq as [|l q Hl _ IH]; intros i c.
  - reflexivity.
  - cbn [change_lines]. rewrite Hl. cbn. apply IH.
Qed.

(** Lines that leave the counter alone never end the scan. *)
Lemma scanned_app_quiet (lines q : list str) (i : Z) :
  Forall (fun l => balance l = 0) q ->
  exists q', scanned i (lines ++ q) = scanned i lines ++ q'
             /\ Forall (fun l => balance l = 0) q'.
Proof.
  intros Hq. revert i. induction lines as [|l lines IH]; intros i.
  - cbn [app scanned]. exists q. split; [|exact Hq].
    revert i. induction Hq as [|l q Hl _ IH]; intros i;
      [reflexivity|].
    cbn [scanned]. unfold cutoff_fires. rewrite Hl. cbn. now rewrite IH.
  - cbn [app scanned]. destruct (cutoff_fires i l).
    + exists []. split; [reflexivity|constructor].
    + destruct (IH (i + 1)) as [q' [-> Hq']]. now exists q'.
Qed.

Lemma windowed_for_lines_app (l1 l2 : list str) (i : Z)
      (s : debug_braces.state) :
  debug_braces.for_lines i (l1 ++ l2) s
  = debug_braces.for_lines (i + Z.of_nat (length l1)) l2
      (debug_braces.for_lines i l1 s).
Proof.
  revert i s. induction l1 as [|l l1 IH]; intros i s.
  - cbn. now rewrite Z.add_0_r.
  - cbn [app debug_braces.for_lines length]. rewrite IH.
    f_equal. lia.
Qed.

Lemma streaming_for_lines_app (l1 l2 : list str) (i : Z)
      (s : debug_braces_full.state) :
  i + Z.of_nat (length l1) <= 1301 ->
  debug_braces_full.for_lines i (l1 ++ l2) s
  = debug_braces_full.for_lines (i + Z.of_nat (length l1)) l2
      (debug_braces_full.for_lines i l1 s).
Proof.
  revert i s. induction l1 as [|l l1 IH]; intros i s Hlen.
  - cbn. now rewrite Z.add_0_r.
  - cbn [app debug_braces_full.for_lines length] in *.
    pose proof (streaming_body_break i l s) as Hb.
    destruct (debug_braces_full.body i l s) as [s' brk]. cbn [snd] in Hb.
    assert (brk = false) as ->.
    { rewrite Hb. unfold cutoff_fires.
      destruct (Z.gtb_spec i 1300); [lia|apply andb_false_r]. }
    rewrite IH by lia. f_equal. lia.
Qed.

End Parts.

(** Lines appended to the list of lines read that each hold as many [{] as
    [}] change nothing in what either script counts and prints. *)
Lemma balanced_tail_lines (lines q : list str) :
  Forall (fun l => balance l = 0) q ->
  (debug_braces.brace_count (debug_braces.script (lines ++ q))
   = debug_braces.brace_count (debug_braces.script lines)
   /\ debug_braces.line_braces (debug_braces.script (lines ++ q))
      = debug_braces.line_braces (debug_braces.script lines)
   /\ debug_braces.stdout (debug_braces.script (lines ++ q))
      = debug_braces.stdout (debug_braces.script lines))
  /\ (debug_braces_full.brace_count (debug_braces_full.script (lines ++ q))
      = debug_braces_full.brace_count (debug_braces_full.script lines)
      /\ debug_braces_full.stdout (debug_braces_full.script (lines ++ q))
         = debug_braces_full.stdout (debug_braces_full.script lines)).
Proof.
  intros Hq. split.
  - rewrite !windowed_script.
    cbn [debug_braces.brace_count debug_braces.line_braces
         debug_braces.stdout].
    rewrite concat_app, balance_app, (balance_concat_quiet q Hq), Z.add_0_r.
    rewrite changes_app, (changes_quiet q _ _ Hq), app_nil_r.
    repeat split.
  - destruct (scanned_app_quiet lines q 1 Hq) as [q' [Hsc Hq']].
    assert (Hcount :
      debug_braces_full.brace_count (debug_braces_full.script (lines ++ q))
      = debug_braces_full.brace_count (debug_braces_full.script lines)).
    { destruct (streaming_script (lines ++ q)) as [-> _].
      destruct (streaming_script lines) as [-> _].
      rewrite Hsc, concat_app, balance_app, (balance_concat_quiet q' Hq').
      lia. }
    split; [exact Hcount|].
    unfold debug_braces_full.script in *.
    cbn [debug_braces_full.print debug_braces_full.stdout
         debug_braces_full.brace_count] in *.
    rewrite Hcount, !streaming_stdout, Hsc, change_lines_app.
    now rewrite (change_lines_quiet q' _ _ Hq'), app_nil_r.
Qed.

Section Appending.

Lemma split_lines_newline_nonempty (x : str) : split_lines (x ++ [LF]) <> [].
Proof.
  intros H. pose proof (concat_split_lines (x ++ [LF])) as Hc.
  rewrite H in Hc. destruct x; discriminate Hc.
Qed.

(** After a line end, the lines of the rest are those of the rest alone. *)
Lemma split_lines_after_newline (x y : str) :
  split_lines (x ++ LF :: y) = split_lines (x ++ [LF]) ++ split_lines y.
Proof.
  induction x as [|c x IH]; [reflexivity|].
  cbn [app split_lines]. destruct (c =? LF)%N.
  - cbn [app]. now rewrite IH.
  - rewrite IH.
    destruct (split_lines (x ++ [LF])) as [|l ls] eqn:Hx;
      [now apply split_lines_newline_nonempty in Hx|reflexivity].
Qed.

(** The translation of line ends does not reach across a ["\n"]. *)
Lemma universal_newlines_after_newline (t u : str) :
  exists x, universal_newlines (t ++ [LF]) = x ++ [LF]
            /\ universal_newlines (t ++ LF :: u)
               = x ++ LF :: universal_newlines u.
Proof.
  enough (H : (exists x, universal_newlines (t ++ [LF]) = x ++ [LF]
                         /\ universal_newlines (t ++ LF :: u)
                            = x ++ LF :: universal_newlines u)
              /\ forall c,
                   exists x, universal_newlines ((c :: t) ++ [LF]) = x ++ [LF]
                             /\ universal_newlines ((c :: t) ++ LF :: u)
                                = x ++ LF :: universal_newlines u)
    by apply H.
  induction t as [|c' t [IH1 IH2]].
  - split; [exists []; split; reflexivity|].
    intros c. cbn [app]. rewrite !(universal_newlines_cons c).
    destruct (c =? CR)%N.
    + exists []. split; reflexivity.
    + exists [c]. split; reflexivity.
  - split; [apply IH2|]. intros c. cbn [app].
    rewrite !(universal_newlines_cons c).
    destruct (c =? CR)%N.
    + destruct (c' =? LF)%N.
      * destruct IH1 as [x [H1 H2]]. exists (LF :: x).
        cbn [app]. now rewrite H1, H2.
      * destruct (IH2 c') as [x [H1 H2]]. exists (LF :: x).
        cbn [app] in *. now rewrite H1, H2.
    + destruct (IH2 c') as [x [H1 H2]]. exists (c :: x).
      cbn [app] in *. now rewrite H1, H2.
Qed.

(** Text appended to a text that is empty or ends with ["\n"] adds its own
    lines after the lines there were. *)
Lemma lines_of_app (t u : str) :
  t = [] \/ (exists t', t = t' ++ [LF]) ->
  lines_of (t ++ u) = lines_of t ++ lines_of u.
Proof.
  intros [->|[t' ->]]; [reflexivity|].
  unfold lines_of. rewrite <- app_assoc. cbn [app].
  destruct (universal_newlines_after_newline t' u) as [x [-> ->]].
  apply split_lines_after_newline.
Qed.

Lemma main_of_text (w : World) (f : list byte) (t : str) :
  open w debug_braces.path = Return f ->
  decode w f = Some t ->
  debug_braces.main w = Return (debug_braces.script (lines_of t))
  /\ debug_braces_full.main w
     = Return (debug_braces_full.script (lines_of t)).
Proof.
  intros Hopen Hdec. unfold debug_braces.main, debug_braces_full.main.
  change debug_braces_full.path with debug_braces.path.
  rewrite Hopen. cbn [bind]. unfold readlines. rewrite Hdec.
  split; reflexivity.
Qed.

End Appending.

(** X9.  Take a file that opens and decodes to a text that is empty or ends
    with ["\n"], and a second file whose text is the first one's followed
    by more text, of which every line holds as many [{] as [}] (lines
    without braces among them).  Each script runs to its end on both files
    and counts and prints the same on both; [debug_braces.py] collects the
    same records. *)
Theorem balanced_tail_of_file (w1 w2 : World) (f1 f2 : list byte)
        (t u : str) :
  open w1 debug_braces.path = Return f1 ->
  decode w1 f1 = Some t ->
  open w2 debug_braces.path = Return f2 ->
  decode w2 f2 = Some (t ++ u) ->
  t = [] \/ (exists t', t = t' ++ [LF]) ->
  Forall (fun l => balance l = 0) (lines_of u) ->
  (exists s1 s2,
     debug_braces.main w1 = Return s1
     /\ debug_braces.main w2 = Return s2
     /\ debug_braces.brace_count s2 = debug_braces.brace_count s1
     /\ debug_braces.line_braces s2 = debug_braces.line_braces s1
     /\ debug_braces.stdout s2 = debug_braces.stdout s1)
  /\ (exists s1 s2,
        debug_braces_full.main w1 = Return s1
        /\ debug_braces_full.main w2 = Return s2
        /\ debug_braces_full.brace_count s2
           = debug_braces_full.brace_count s1
        /\ debug_braces_full.stdout s2 = debug_braces_full.stdout s1).
Proof.
  intros Ho1 Hd1 Ho2 Hd2 Hend Hq.
  destruct (main_of_text w1 f1 t Ho1 Hd1) as [HA1 HB1].
  destruct (main_of_text w2 f2 (t ++ u) Ho2 Hd2) as [HA2 HB2].
  rewrite (lines_of_app t u Hend) in HA2, HB2.
  destruct (balanced_tail_lines (lines_of t) (lines_of u) Hq)
    as [(Ha & Hb & Hc) (Hd & He)].
  split.
  - exists (debug_braces.script (lines_of t)),
           (debug_braces.script (lines_of t ++ lines_of u)).
    repeat split; assumption.
  - exists (debug_braces_full.script (lines_of t)),
           (debug_braces_full.script (lines_of t ++ lines_of u)).
    repeat split; assumption.
Qed.

(** The hypotheses of X9 hold for the file [{], line end, and the file that
    goes on with [} // {], line end, [x] and no line end. *)
Lemma balanced_tail_of_file_witness :
  let c1 := [x7b; x0a] in
  let c2 := [x7b; x0a; x7d; x20; x2f; x2f; x20; x7b; x0d; x0a; x78] in
  let t := [LBRACE; LF] in
  let u := lit "} // {" ++ [CR; LF] ++ lit "x" in
  (decode (utf8_file c1) c1 = Some t
   /\ decode (utf8_file c2) c2 = Some (t ++ u)
   /\ Forall (fun l => balance l = 0) (lines_of u))
  /\ exists s1 s2,
       debug_braces_full.main (utf8_file c1) = Return s1
       /\ debug_braces_full.main (utf8_file c2) = Return s2
       /\ debug_braces_full.brace_count s2
          = debug_braces_full.brace_count s1
       /\ debug_braces_full.stdout s2 = debug_braces_full.stdout s1.
Proof.
  cbv zeta.
  assert (Hd1 : decode (utf8_file [x7b; x0a]) [x7b; x0a]
                = Some [LBRACE; LF]) by reflexivity.
  assert (Hd2 : decode (utf8_file [x7b; x0a; x7d; x20; x2f; x2f; x20; x7b;
                                   x0d; x0a; x78])
                  [x7b; x0a; x7d; x20; x2f; x2f; x20; x7b; x0d; x0a; x78]
                = Some ([LBRACE; LF] ++ lit "} // {" ++ [CR; LF] ++ lit "x"))
    by reflexivity.
  assert (Hq : Forall (fun l => balance l = 0)
                      (lines_of (lit "} // {" ++ [CR; LF] ++ lit "x")))
    by (vm_compute; repeat constructor).
  split; [repeat split; assumption|].
  exact (proj2 (balanced_tail_of_file (utf8_file _) (utf8_file _) _ _ _ _
                  eq_refl Hd1 eq_refl Hd2
                  (or_intror (ex_intro _ [LBRACE] eq_refl)) Hq)).
Defined.

(** X10.  Scanning a file is scanning its first part and going on with the
    rest, the line numbers carried over: always for [debug_braces.py], and
    for [debug_braces_full.py] when the first part ends at line 1300 or
    before. *)
Theorem scan_in_parts (l1 l2 : list str) (i : Z)
        (sA : debug_braces.state) (sB : debug_braces_full.state) :
  debug_braces.for_lines i (l1 ++ l2) sA
  = debug_braces.for_lines (i + Z.of_nat (length l1)) l2
      (debug_braces.for_lines i l1 sA)
  /\ (i + Z.of_nat (length l1) <= 1301 ->
      debug_braces_full.for_lines i (l1 ++ l2) sB
      = debug_braces_full.for_lines (i + Z.of_nat (length l1)) l2
          (debug_braces_full.for_lines i l1 sB)).
Proof.
  split; [apply windowed_for_lines_app|apply streaming_for_lines_app].
Qed.

(** X10 at a file cut after its first line. *)
Lemma scan_in_parts_witness :
  let l1 := [lit "a {" ++ [LF]] in
  let l2 := [lit "} }" ++ [LF]] in
  1 + Z.of_nat (length l1) <= 1301
  /\ debug_braces_full.for_lines 1 (l1 ++ l2) debug_braces_full.init
     = debug_braces_full.for_lines 2 l2
         (debug_braces_full.for_lines 1 l1 debug_braces_full.init).
Proof.
  cbv zeta.
  assert (H : 1 + Z.of_nat (length [lit "a {" ++ [LF]]) <= 1301)
    by (cbn; lia).
  split; [exact H|].
  exact (proj2 (scan_in_parts [lit "a {" ++ [LF]] [lit "} }" ++ [LF]] 1
                  debug_braces.init debug_braces_full.init) H).
Defined.

(** ** Counting braces in the bytes of a UTF-8 file *)

Section Bytes.

(** A code point or byte value of 128 or more is no brace. *)
Lemma balance_high (x : N) (t : list N) :
  (128 <= x)%N -> balance (x :: t) = balance t.
Proof.
  intros Hx. rewrite balance_cons.
  destruct (N.eqb_spec x LBRACE) as [->|]; [unfold LBRACE in Hx; lia|].
  destruct (N.eqb_spec x RBRACE) as [->|]; [unfold RBRACE in Hx; lia|].
  lia.
Qed.

Lemma is_cont_high (b : N) : is_cont b = true -> (128 <= b)%N.
Proof.
  unfold is_cont. rewrite andb_true_iff, N.leb_le. tauto.
Qed.

Lemma utf8_accept_high (len : nat) (cp : N) :
  utf8_accept len cp = true -> (128 <= cp)%N.
Proof.
  destruct len as [|[|[|[|[|len]]]]]; cbn [utf8_accept]; try discriminate;
    rewrite ?andb_true_iff, !N.leb_le; lia.
Qed.

Ltac decoded H :=
  match type of H with
  | option_map _ ?d = Some _ =>
      let t' := fresh "t'" in
      let Hd := fresh "Hd" in
      destruct d as [t'|] eqn:Hd; [|discriminate H];
      cbn [option_map] in H; injection H as <-
  end.

(** Decoding UTF-8 neither adds nor drops a brace: the bytes [0x7B] and
    [0x7D] stand for [{] and [}] and occur in no longer sequence. *)
Lemma utf8_decode_N_balance (n : nat) :
  forall bs t, (length bs <= n)%nat ->
               utf8_decode_N bs = Some t -> balance t = balance bs.
Proof.
  induction n as [|n IH]; intros bs t Hlen H.
  - destruct bs; [|cbn in Hlen; lia]. now injection H as <-.
  - destruct bs as [|b0 r0]; [now injection H as <-|].
    cbn [utf8_decode_N] in H. cbn [length] in Hlen.
    destruct (b0 <? 128)%N.
    { decoded H. rewrite !(balance_cons b0). f_equal. apply IH; [lia|exact Hd]. }
    destruct ((192 <=? b0) && (b0 <? 224))%N eqn:E2.
    { apply andb_true_iff in E2 as [E2 _]. apply N.leb_le in E2.
      destruct r0 as [|b1 r1]; [discriminate H|].
      destruct (is_cont b1 && utf8_accept 2 _) eqn:Ec; [|discriminate H].
      apply andb_true_iff in Ec as [Hc1 Ha].
      decoded H. cbn [length] in Hlen.
      rewrite (balance_high _ t' (utf8_accept_high _ _ Ha)).
      rewrite (balance_high b0) by lia.
      rewrite (balance_high b1) by now apply is_cont_high.
      apply IH; [lia|exact Hd]. }
    destruct ((224 <=? b0) && (b0 <? 240))%N eqn:E3.
    { apply andb_true_iff in E3 as [E3 _]. apply N.leb_le in E3.
      destruct r0 as [|b1 [|b2 r2]]; try discriminate H.
      destruct (is_cont b1 && is_cont b2 && utf8_accept 3 _) eqn:Ec;
        [|discriminate H].
      apply andb_true_iff in Ec as [Ec Ha].
      apply andb_true_iff in Ec as [Hc1 Hc2].
      decoded H. cbn [length] in Hlen.
      rewrite (balance_high _ t' (utf8_accept_high _ _ Ha)).
      rewrite (balance_high b0) by lia.
      rewrite (balance_high b1) by now apply is_cont_high.
      rewrite (balance_high b2) by now apply is_cont_high.
      apply IH; [lia|exact Hd]. }
    destruct ((240 <=? b0) && (b0 <? 248))%N eqn:E4; [|discriminate H].
    apply andb_true_iff in E4 as [E4 _]. apply N.leb_le in E4.
    destruct r0 as [|b1 [|b2 [|b3 r3]]]; try discriminate H.
    destruct (is_cont b1 && is_cont b2 && is_cont b3 && utf8_accept 4 _)
      eqn:Ec; [|discriminate H].
    apply andb_true_iff in Ec as [Ec Ha].
    apply andb_true_iff in Ec as [Ec Hc3].
    apply andb_true_iff in Ec as [Hc1 Hc2].
    decoded H. cbn [length] in Hlen.
    rewrite (balance_high _ t' (utf8_accept_high _ _ Ha)).
    rewrite (balance_high b0) by lia.
    rewrite (balance_high b1) by now apply is_cont_high.
    rewrite (balance_high b2) by now apply is_cont_high.
    rewrite (balance_high b3) by now apply is_cont_high.
    apply IH; [lia|exact Hd].
Qed.

(** Bytes below 128 decode to themselves. *)
Lemma utf8_decode_N_ascii (bs : list N) :
  Forall (fun b => (b < 128)%N) bs -> utf8_decode_N bs = Some bs.
Proof.
  induction 1 as [|b bs Hb _ IH]; [reflexivity|].
  cbn [utf8_decode_N]. apply N.ltb_lt in Hb. now rewrite Hb, IH.
Qed.

Lemma utf8_file_opens (content : list byte) :
  open (utf8_file content) debug_braces.path = Return content.
Proof. reflexivity. Qed.

End Bytes.

(** X11.  Under a UTF-8 locale, on a file that decodes, [debug_braces.py]
    ends with the counter at the number of bytes [0x7B] minus the number of
    bytes [0x7D] of the file: characters outside ASCII and the kind of
    line ends count for nothing. *)
Theorem utf8_counts_bytes (content : list byte) :
  utf8_decode content <> None ->
  exists s, debug_braces.main (utf8_file content) = Return s
            /\ debug_braces.brace_count s
               = balance (map Byte.to_N content).
Proof.
  intros Hdec. destruct (utf8_decode content) as [t|] eqn:Ht; [|easy].
  destruct (windowed_main_whole_file (utf8_file content) content t
              (utf8_file_opens content) Ht) as [s [Hs Hc]].
  exists s. split; [exact Hs|]. rewrite Hc.
  exact (utf8_decode_N_balance _ _ _ (le_n _) Ht).
Qed.

(** The hypothesis of X11 holds on the bytes of [a{], e-acute, [}{],
    with a Windows line end. *)
Lemma utf8_counts_bytes_witness :
  let content := [x61; x7b; xc3; xa9; x7d; x7b; x0d; x0a] in
  utf8_decode content <> None
  /\ exists s, debug_braces.main (utf8_file content) = Return s
               /\ debug_braces.brace_count s = 1.
Proof.
  cbv zeta.
  assert (H : utf8_decode [x61; x7b; xc3; xa9; x7d; x7b; x0d; x0a] <> None)
    by (vm_compute; discriminate).
  split; [exact H|].
  destruct (utf8_counts_bytes _ H) as [s [Hs Hc]].
  exists s. split; [exact Hs|]. rewrite Hc. reflexivity.
Defined.

(** X12.  Under a UTF-8 locale, a file that exists and holds only ASCII
    bytes is always read: both scripts run to their end, on the lines of
    the bytes taken as characters. *)
Theorem ascii_file_is_read (content : list byte) :
  Forall (fun b => (Byte.to_N b < 128)%N) content ->
  let lines := split_lines (universal_newlines (map Byte.to_N content)) in
  debug_braces.main (utf8_file content)
  = Return (debug_braces.script lines)
  /\ debug_braces_full.main (utf8_file content)
     = Return (debug_braces_full.script lines).
Proof.
  intros Hascii lines.
  assert (Hd : utf8_decode content = Some (map Byte.to_N content)).
  { apply utf8_decode_N_ascii. now apply Forall_map. }
  unfold debug_braces.main, debug_braces_full.main.
  change debug_braces_full.path with debug_braces.path.
  rewrite utf8_file_opens. cbn [bind]. unfold readlines.
  change (decode (utf8_file content)) with utf8_decode.
  rewrite Hd. split; reflexivity.
Qed.

(** The hypothesis of X12 holds on the bytes of [{}{], line end. *)
Lemma ascii_file_is_read_witness :
  let content := [x7b; x7d; x7b; x0a] in
  Forall (fun b => (Byte.to_N b < 128)%N) content
  /\ debug_braces.main (utf8_file content)
     = Return (debug_braces.script [lit "{}{" ++ [LF]]).
Proof.
  cbv zeta.
  assert (H : Forall (fun b => (Byte.to_N b < 128)%N) [x7b; x7d; x7b; x0a])
    by (repeat constructor).
  split; [exact H|].
  exact (proj1 (ascii_file_is_read _ H)).
Defined.
